(** * Verification of [meta-pet-mobile/assets/convert-svg.py]

    The script rasterises two SVG templates into four PNG assets.  It is a
    straight-line batch of file-system operations and calls into an external
    rasteriser (cairosvg).  The development models

    - paths as [pathlib] does (a sequence of components),
    - the file system as a finite map from paths to nodes,
    - every interaction with the environment (console, [mkdir], [exists],
      the rasteriser, [open]/[write]) as an event appended to a trace,
    - Python exceptions as the [Raise] outcome of a state-and-error monad,

    and then proves the behaviour of [convert_svg_to_png] and [main].

    The file-system operations fail exactly when the shape of the file
    system makes them fail (a missing parent, a file where a directory is
    needed, a directory where a file is needed); permissions, quotas and
    links are outside the model, and so are a console that refuses a line
    and a write or close that fails once the file is open.  The rasteriser
    is a parameter: nothing is assumed about it except where a theorem says
    so. *)

From Stdlib Require Import ZArith List Ascii.
From Stdlib.Strings Require Import Byte.
From stdpp Require Import gmap strings list fin_maps pretty.

Open Scope Z_scope.

(** ** Paths ([pathlib.Path], pure part) *)

Abbreviation path := (list string).
Abbreviation bytes := (list byte).

Module Pathlib.

(** [p / name] *)
Definition truediv (p : path) (name : string) : path := p ++ [name].

(** [p.parent]; the root and the current directory are their own parents. *)
Definition parent (p : path) : path :=
  match p with
  | [""] => [""]
  | _ => removelast p
  end.

(** [p.name] *)
Definition name (p : path) : string := List.last p "".

(** [str(p)]: the components joined by the separator; the empty path is
    the current directory. An absolute path is a path whose first
    component is empty. *)
Fixpoint join_parts (p : path) : string :=
  match p with
  | [] => ""
  | [c] => c
  | c :: rest => c +:+ "/" +:+ join_parts rest
  end.

Definition str (p : path) : string :=
  match p with
  | [] => "."
  | [""] => "/"
  | _ => join_parts p
  end.

End Pathlib.

Infix "</>" := Pathlib.truediv (at level 40, left associativity).

(** ** The environment: file system, exceptions, events *)

Inductive node : Type :=
  | Dir
  | File (content : bytes).

Inductive exn : Type :=
  | FileNotFoundError (p : path)
  | FileExistsError (p : path)
  | NotADirectoryError (p : path)
  | IsADirectoryError (p : path)
  | LibraryError (msg : string).

(** Everything the program does to its environment, in the order it does it. *)
Inductive event : Type :=
  | EvPrint (line : string)
  | EvMkdir (p : path)
  | EvStat (p : path) (found : bool)
  | EvRaster (url : string) (output_width output_height : Z)
  | EvOpen (p : path)
  | EvWrite (p : path) (data : bytes).

Record world : Type := World {
  fs : gmap path node;
  trace : list event
}.

Definition set_fs (f : gmap path node -> gmap path node) (w : world) : world :=
  {| fs := f (fs w); trace := trace w |}.

Definition log (e : event) (w : world) : world :=
  {| fs := fs w; trace := trace w ++ [e] |}.

(** The events of a run that started in [w] and ended in [w']. *)
Definition events_since (w w' : world) : list event :=
  drop (length (trace w)) (trace w').

(** Projections of a trace. *)
Definition rasters (t : list event) : list (string * Z * Z) :=
  flat_map (fun e => match e with EvRaster u a b => [(u, a, b)] | _ => [] end) t.

Definition writes (t : list event) : list (path * bytes) :=
  flat_map (fun e => match e with EvWrite p d => [(p, d)] | _ => [] end) t.

Definition stdout (t : list event) : list string :=
  flat_map (fun e => match e with EvPrint s => [s] | _ => [] end) t.

Definition is_conversion_event (e : event) : bool :=
  match e with
  | EvRaster _ _ _ | EvOpen _ | EvWrite _ _ => true
  | _ => false
  end.

(** The events of the prelude of [main]: the directory step and the checks. *)
Definition is_setup_event (e : event) : bool :=
  match e with
  | EvMkdir _ | EvStat _ _ => true
  | _ => false
  end.

(** ** A state-and-exception monad *)

Inductive result (A : Type) : Type :=
  | Ok (a : A)
  | Raise (e : exn).
Arguments Ok {A} a.
Arguments Raise {A} e.

Definition M (A : Type) : Type := world -> result A * world.

Definition ret {A} (a : A) : M A := fun w => (Ok a, w).

Definition raise {A} (e : exn) : M A := fun w => (Raise e, w).

Definition bind {A B} (m : M A) (f : A -> M B) : M B :=
  fun w =>
    match m w with
    | (Ok a, w1) => f a w1
    | (Raise e, w1) => (Raise e, w1)
    end.

Declare Scope io_scope.
Delimit Scope io_scope with io.
Notation "'let*' x ':=' c 'in' k" := (bind c (fun x => k))
  (at level 10, x name, c at level 100, k at level 200, only parsing) : io_scope.
Notation "c '>>' k" := (bind c (fun _ => k))
  (at level 100, k at level 200, right associativity, only parsing) : io_scope.

Definition emit (e : event) : M unit := fun w => (Ok tt, log e w).

(** [print(line)] *)
Definition print (line : string) : M unit := emit (EvPrint line).

(** Walking down [rest] from [walked]: whether the first component that is
    not a directory is a regular file (rather than absent). *)
Fixpoint blocked_by_file (m : gmap path node) (walked : path) (rest : list string) : bool :=
  match rest with
  | [] => false
  | c :: rest' =>
      match m !! (walked ++ [c]) with
      | Some Dir => blocked_by_file m (walked ++ [c]) rest'
      | Some (File _) => true
      | None => false
      end
  end.

(** The error of an operation on [p] whose parent does not exist: the parent
    is looked up component by component, and a regular file on the way gives
    [NotADirectoryError], a missing component [FileNotFoundError]. *)
Definition missing_parent_error (m : gmap path node) (p : path) : exn :=
  if blocked_by_file m [] (Pathlib.parent p)
  then NotADirectoryError p
  else FileNotFoundError p.

(** [os.mkdir]: one level only. *)
Definition os_mkdir (p : path) : M unit :=
  (emit (EvMkdir p) >>
   fun w =>
     match fs w !! p with
     | Some _ => (Raise (FileExistsError p), w)
     | None =>
         match fs w !! Pathlib.parent p with
         | Some Dir => (Ok tt, set_fs (insert p Dir) w)
         | Some (File _) => (Raise (NotADirectoryError p), w)
         | None => (Raise (missing_parent_error (fs w) p), w)
         end
     end)%io.

(** [Path.is_dir] as used inside [Path.mkdir] (not an event of the script). *)
Definition is_dir (p : path) (w : world) : bool :=
  match fs w !! p with
  | Some Dir => true
  | _ => false
  end.

(** [Path.mkdir(parents=False, exist_ok=False)], following pathlib: a missing
    parent is created only when [parents] is set, and an existing node is
    tolerated only when [exist_ok] is set and the node is a directory.
    [depth] bounds the recursion over the ancestors. *)
Fixpoint mkdir_rec (depth : nat) (p : path) (parents exist_ok : bool) : M unit :=
  fun w =>
    match os_mkdir p w with
    | (Ok tt, w1) => (Ok tt, w1)
    | (Raise (FileNotFoundError q), w1) =>
        if negb parents || bool_decide (Pathlib.parent p = p)
        then (Raise (FileNotFoundError q), w1)
        else
          match depth with
          | O => (Raise (FileNotFoundError q), w1)
          | S d =>
              (mkdir_rec d (Pathlib.parent p) true true >>
               mkdir_rec d p false exist_ok)%io w1
          end
    | (Raise e, w1) =>
        if negb exist_ok || negb (is_dir p w1)
        then (Raise e, w1)
        else (Ok tt, w1)
    end.

Definition mkdir (p : path) (parents exist_ok : bool) : M unit :=
  mkdir_rec (length p) p parents exist_ok.

(** [Path.exists] *)
Definition path_exists (p : path) : M bool :=
  fun w =>
    let found := bool_decide (is_Some (fs w !! p)) in
    (Ok found, log (EvStat p found) w).

(** [open(p, 'wb')]: creates or truncates; the handle is the path. *)
Definition open_wb (p : path) : M path :=
  (emit (EvOpen p) >>
   fun w =>
     match fs w !! p with
     | Some Dir => (Raise (IsADirectoryError p), w)
     | Some (File _) => (Ok p, set_fs (insert p (File [])) w)
     | None =>
         match fs w !! Pathlib.parent p with
         | Some Dir => (Ok p, set_fs (insert p (File [])) w)
         | Some (File _) => (Raise (NotADirectoryError p), w)
         | None => (Raise (missing_parent_error (fs w) p), w)
         end
     end)%io.

(** [f.write(data)]: appends to what the handle has written so far. *)
Definition fwrite (f : path) (data : bytes) : M unit :=
  (emit (EvWrite f data) >>
   fun w =>
     match fs w !! f with
     | Some (File old) => (Ok tt, set_fs (insert f (File (old ++ data))) w)
     | _ => (Ok tt, set_fs (insert f (File data)) w)
     end)%io.

Section Script.

(** [Path(__file__).parent] *)
Variable assets_dir : path.

(** [cairosvg.svg2png], the external rasteriser: given what the run has
    done so far, the url and the requested size, it raises or returns the
    bytes of a PNG. *)
Variable cairo : world -> string -> Z -> Z -> exn + bytes.

Definition svg2png (url : string) (output_width output_height : Z) : M bytes :=
  (emit (EvRaster url output_width output_height) >>
   fun w =>
     match cairo w url output_width output_height with
     | inl e => (Raise e, w)
     | inr png_data => (Ok png_data, w)
     end)%io.

Definition converting_line (svg_path png_path : path) (width height : Z) : string :=
  "Converting " +:+ Pathlib.str svg_path +:+ " to " +:+ Pathlib.str png_path
    +:+ " (" +:+ pretty width +:+ "x" +:+ pretty height +:+ ")...".

Definition created_line (png_path : path) : string :=
  "✓ " +:+ Pathlib.name png_path +:+ " created".

Definition convert_svg_to_png (svg_path png_path : path) (width height : Z) : M unit :=
  (print (converting_line svg_path png_path width height) >>
   let* png_data := svg2png (Pathlib.str svg_path) width height in
   let* f := open_wb png_path in
   fwrite f png_data >>
   print (created_line png_path))%io.

Definition icons_dir : path := assets_dir </> "icons".
Definition icon_svg : path := assets_dir </> "PLACEHOLDER_ICON.svg".
Definition splash_svg : path := assets_dir </> "PLACEHOLDER_SPLASH.svg".

Definition not_found_line (p : path) : string :=
  "Error: " +:+ Pathlib.str p +:+ " not found!".

Definition newline : string := String "010"%char "".

Definition summary_lines : list string :=
  [ newline +:+ "✅ All assets converted successfully!";
    newline +:+ "Generated files:";
    "  - assets/icons/icon.png (1024x1024)";
    "  - assets/icons/adaptive-icon.png (1024x1024)";
    "  - assets/icons/favicon.png (48x48)";
    "  - assets/splash.png (1284x2778)" ].

(** The step of [main] that ensures the output directory:
    [icons_dir.mkdir(exist_ok=True)]. *)
Definition ensure_icons_dir : M unit := mkdir icons_dir false true.

Definition main : M Z :=
  (ensure_icons_dir >>
   let* icon_found := path_exists icon_svg in
   if negb icon_found then
     print (not_found_line icon_svg) >> ret 1
   else
   let* splash_found := path_exists splash_svg in
   if negb splash_found then
     print (not_found_line splash_svg) >> ret 1
   else
   convert_svg_to_png icon_svg (icons_dir </> "icon.png") 1024 1024 >>
   convert_svg_to_png icon_svg (icons_dir </> "adaptive-icon.png") 1024 1024 >>
   convert_svg_to_png icon_svg (icons_dir </> "favicon.png") 48 48 >>
   convert_svg_to_png splash_svg (assets_dir </> "splash.png") 1284 2778 >>
   print (newline +:+ "✅ All assets converted successfully!") >>
   print (newline +:+ "Generated files:") >>
   print "  - assets/icons/icon.png (1024x1024)" >>
   print "  - assets/icons/adaptive-icon.png (1024x1024)" >>
   print "  - assets/icons/favicon.png (48x48)" >>
   print "  - assets/splash.png (1284x2778)" >>
   ret 0)%io.

(** [exit(main())]: the status the process ends with; an exception that
    nobody catches ends the interpreter with status 1. *)
Definition exit_main (w : world) : Z * world :=
  match main w with
  | (Ok status, w') => (status, w')
  | (Raise _, w') => (1, w')
  end.

(** *** The batch of [main] as data

    The four calls of [main], lines 59-68, in program order.  [main] itself is
    written as the source has it; [main_eq] below relates it to [run_batch]. *)

Record job : Type := Job {
  src : path;
  dst : path;
  width : Z;
  height : Z
}.

Definition batch : list job :=
  [ Job icon_svg (icons_dir </> "icon.png") 1024 1024;
    Job icon_svg (icons_dir </> "adaptive-icon.png") 1024 1024;
    Job icon_svg (icons_dir </> "favicon.png") 48 48;
    Job splash_svg (assets_dir </> "splash.png") 1284 2778 ].

Definition convert_job (j : job) : M unit :=
  convert_svg_to_png (src j) (dst j) (width j) (height j).

Fixpoint run_batch (js : list job) : M unit :=
  match js with
  | [] => ret tt
  | j :: rest => (convert_job j >> run_batch rest)%io
  end.

(** What the rasteriser is asked for by a job. *)
Definition request (j : job) : string * Z * Z :=
  (Pathlib.str (src j), width j, height j).

(** The world in which the rasteriser is called by a conversion started in [w]. *)
Definition conv_started (svg_path png_path : path) (width height : Z) (w : world) : world :=
  log (EvRaster (Pathlib.str svg_path) width height)
    (log (EvPrint (converting_line svg_path png_path width height)) w).

(** The events of one conversion that runs to its end. *)
Definition conv_events (svg_path png_path : path) (width height : Z) (data : bytes)
  : list event :=
  [ EvPrint (converting_line svg_path png_path width height);
    EvRaster (Pathlib.str svg_path) width height;
    EvOpen png_path;
    EvWrite png_path data;
    EvPrint (created_line png_path) ].

(** The world a conversion that runs to its end leaves behind. *)
Definition conv_finished (svg_path png_path : path) (width height : Z) (data : bytes)
  (w : world) : world :=
  {| fs := <[png_path := File data]> (fs w);
     trace := trace w ++ conv_events svg_path png_path width height data |}.

(** The world after both checks of [main] have passed. *)
Definition checked (w0 : world) : world :=
  log (EvStat splash_svg true) (log (EvStat icon_svg true) w0).

(** The world after the summary has been printed. *)
Definition finished (w5 : world) : world :=
  {| fs := fs w5; trace := trace w5 ++ map EvPrint summary_lines |}.

End Script.

(** [open(p, 'wb')] succeeds on [m]: [p] is a regular file, or is absent from
    an existing directory. *)
Definition writable (m : gmap path node) (p : path) : bool :=
  match m !! p with
  | Some Dir => false
  | Some (File _) => true
  | None =>
      match m !! Pathlib.parent p with
      | Some Dir => true
      | _ => false
      end
  end.

(** The exception [open(p, 'wb')] raises on [m] when it fails. *)
Definition open_wb_error (m : gmap path node) (p : path) : exn :=
  match m !! p with
  | Some _ => IsADirectoryError p
  | None =>
      match m !! Pathlib.parent p with
      | Some _ => NotADirectoryError p
      | None => missing_parent_error m p
      end
  end.

(** ** Concrete environments used to exercise the theorems *)

Module Demo.

Definition assets : path := ["assets"].

(** A rasteriser that knows three sizes; the byte it returns encodes the size. *)
Definition cairo (w : world) (url : string) (a b : Z) : exn + bytes :=
  if bool_decide ((a, b) = (48, 48)) then inr [x01]
  else if bool_decide ((a, b) = (1024, 1024)) then inr [x02]
  else if bool_decide ((a, b) = (1284, 2778)) then inr [x03]
  else inl (LibraryError "unsupported size").


(** A rasteriser that fails on the favicon. *)
Definition cairo_no_favicon (w : world) (url : string) (a b : Z) : exn + bytes :=
  if bool_decide ((a, b) = (48, 48)) then inl (LibraryError "cairo: out of memory")
  else cairo w url a b.

Definition root_fs : gmap path node :=
  <[ ["assets"] := Dir ]> (<[ [] := Dir ]> ∅).

(** Both templates present, no output yet. *)
Definition fresh_fs : gmap path node :=
  <[ ["assets"; "PLACEHOLDER_SPLASH.svg"] := File [x53] ]>
    (<[ ["assets"; "PLACEHOLDER_ICON.svg"] := File [x49] ]> root_fs).

Definition fresh : world := World fresh_fs [].

(** Only the splash template present. *)
Definition no_icon : world :=
  World (<[ ["assets"; "PLACEHOLDER_SPLASH.svg"] := File [x53] ]> root_fs) [].

(** Only the icon template present. *)
Definition no_splash : world :=
  World (<[ ["assets"; "PLACEHOLDER_ICON.svg"] := File [x49] ]> root_fs) [].

(** The icons directory is already there, with a file of somebody else in it. *)
Definition with_icons_dir : world :=
  World (<[ ["assets"; "icons"; "README.txt"] := File [x68; x69] ]>
           (<[ ["assets"; "icons"] := Dir ]> fresh_fs)) [].

(** [icons] exists but is a regular file. *)
Definition icons_is_file (m : gmap path node) : world :=
  World (<[ ["assets"; "icons"] := File [x00] ]> m) [].

(** The script directory itself is gone. *)
Definition no_assets_dir : world := World (<[ [] := Dir ]> ∅) [].

(** [splash.png] exists but is a directory. *)
Definition splash_png_is_dir : world :=
  World (<[ ["assets"; "splash.png"] := Dir ]> fresh_fs) [].

(** The worlds the first run on [fresh] goes through: after the directory
    step, and after each of the four conversions. *)
Definition step0 : world := (ensure_icons_dir assets fresh).2.

Definition step1 : world :=
  (convert_svg_to_png cairo ["assets"; "PLACEHOLDER_ICON.svg"]
     ["assets"; "icons"; "icon.png"] 1024 1024 (checked assets step0)).2.

Definition step2 : world :=
  (convert_svg_to_png cairo ["assets"; "PLACEHOLDER_ICON.svg"]
     ["assets"; "icons"; "adaptive-icon.png"] 1024 1024 step1).2.

Definition step3 : world :=
  (convert_svg_to_png cairo ["assets"; "PLACEHOLDER_ICON.svg"]
     ["assets"; "icons"; "favicon.png"] 48 48 step2).2.

Definition step4 : world :=
  (convert_svg_to_png cairo ["assets"; "PLACEHOLDER_SPLASH.svg"]
     ["assets"; "splash.png"] 1284 2778 step3).2.

(** The world in which the favicon conversion of the run with
    [cairo_no_favicon] starts. *)
Definition failed_step2 : world :=
  (run_batch cairo_no_favicon (take 2 (batch assets)) (checked assets step0)).2.

(** What the first run on [fresh] leaves behind. *)
Definition after_first_run : world := (main assets cairo fresh).2.

(** Where the run with [cairo_no_favicon] on [fresh] stops. *)
Definition after_failed_favicon : world := (main assets cairo_no_favicon fresh).2.

End Demo.

(** ** The header of a PNG file

    Eight bytes of signature, then the IHDR chunk: its length (13), its
    name, and the width and the height of the image as big-endian 32-bit
    numbers. *)

Module Png.

Definition byte_of (z : Z) : byte := default x00 (Byte.of_N (Z.to_N (z mod 256))).

Definition be32 (z : Z) : bytes :=
  [byte_of (z / 16777216); byte_of (z / 65536); byte_of (z / 256); byte_of z].

Definition number (bs : bytes) : Z :=
  foldl (fun acc b => acc * 256 + Z.of_N (Byte.to_N b)) 0 bs.

Definition preamble : bytes :=
  [ x89; x50; x4e; x47; x0d; x0a; x1a; x0a;
    x00; x00; x00; x0d;
    x49; x48; x44; x52 ].

Definition header (width height : Z) : bytes := preamble ++ be32 width ++ be32 height.

(** The dimensions a PNG file declares. *)
Definition size (data : bytes) : option (Z * Z) :=
  if bool_decide (Byte.to_N <$> take 16 data = Byte.to_N <$> preamble)
     && bool_decide (24 <= length data)%nat
  then Some (number (take 4 (drop 16 data)), number (take 4 (drop 20 data)))
  else None.

End Png.

(** ** The script around [main]

    Lines 7-19 import the rasteriser and, when an import raises
    [ImportError], print a line, run [pip] through the shell once and import
    again, outside any handler; lines 79-80 call [exit(main())] when the
    file is run as a program.  A process is the set of modules whose import
    succeeds, the way the platform lets the other imports fail, the
    commands handed to the shell so far, and the world of [main].  What the
    shell command does is a parameter: it may change the importable modules
    and the file system in any way. *)

Record process : Type := Process {
  modules : gset string;
  (** [faulty mods files name]: with [mods] importable and the files
      [files], importing [name], which is not importable, ends in an
      exception other than [ImportError] (the module is found, but a native
      library it loads is missing, say). *)
  faulty : gset string -> gmap path node -> string -> bool;
  commands : list string;
  os : world
}.

Inductive attempt (A : Type) : Type :=
  | Imported (a : A)
  | ImportError (name : string)
  | ImportCrashed (name : string).
Arguments Imported {A} a.
Arguments ImportError {A} name.
Arguments ImportCrashed {A} name.

(** How the script ends: with an exit status, with an import error nobody
    handles, with another exception raised by an import, or, when it was
    imported as a module, with its definitions in place. *)
Inductive ending : Type :=
  | Exit (status : Z)
  | ImportFailed (name : string)
  | Crashed (name : string)
  | ModuleReady.

(** [import name] *)
Definition import_module (name : string) (p : process) : attempt unit * process :=
  if bool_decide (name ∈ modules p) then (Imported tt, p)
  else if faulty p (modules p) (fs (os p)) name then (ImportCrashed name, p)
  else (ImportError name, p).

(** [import cairosvg; from PIL import Image; import io] *)
Definition imports (p : process) : attempt unit * process :=
  match import_module "cairosvg" p with
  | (Imported _, p1) =>
      match import_module "PIL" p1 with
      | (Imported _, p2) => import_module "io" p2
      | failed => failed
      end
  | failed => failed
  end.

(** The first of the three modules that cannot be imported, if any. *)
Definition first_missing (mods : gset string) : option string :=
  if bool_decide ("cairosvg" ∈ mods) then
    if bool_decide ("PIL" ∈ mods) then
      if bool_decide ("io" ∈ mods) then None else Some "io"
    else Some "PIL"
  else Some "cairosvg".

Definition console_print (line : string) (p : process) : process :=
  {| modules := modules p; faulty := faulty p; commands := commands p;
     os := log (EvPrint line) (os p) |}.

Definition install_line : string := "Installing required packages...".

Definition install_command : string := "pip install cairosvg pillow".

(** A file system keeps what it had: no path disappears and no directory
    becomes something else. *)
Definition fs_kept (m m' : gmap path node) : Prop :=
  forall p,
    (is_Some (m !! p) -> is_Some (m' !! p)) /\
    (m !! p = Some Dir -> m' !! p = Some Dir).

(** The lines a job prints when it runs to its end. *)
Definition job_lines (j : job) : list string :=
  [ converting_line (src j) (dst j) (width j) (height j); created_line (dst j) ].

Section Entry.

Variable shell : string -> gset string -> gmap path node -> gset string * gmap path node.
Variable assets_dir : path.
Variable cairo : world -> string -> Z -> Z -> exn + bytes.

(** [os.system(cmd)]; the status it returns is dropped by the script. *)
Definition os_system (cmd : string) (p : process) : process :=
  let after := shell cmd (modules p) (fs (os p)) in
  {| modules := after.1;
     faulty := faulty p;
     commands := commands p ++ [cmd];
     os := set_fs (fun _ => after.2) (os p) |}.

(** Lines 10-19: the handler is for [ImportError] only. *)
Definition prelude (p : process) : attempt unit * process :=
  match imports p with
  | (Imported u, p1) => (Imported u, p1)
  | (ImportError _, p1) =>
      imports (os_system install_command (console_print install_line p1))
  | (ImportCrashed name, p1) => (ImportCrashed name, p1)
  end.

(** The whole file, run with [__name__] set to [dunder_name]. *)
Definition script (dunder_name : string) (p : process) : ending * process :=
  match prelude p with
  | (ImportError name, p1) => (ImportFailed name, p1)
  | (ImportCrashed name, p1) => (Crashed name, p1)
  | (Imported _, p1) =>
      if bool_decide (dunder_name = "__main__") then
        let done := exit_main assets_dir cairo (os p1) in
        (Exit done.1,
         {| modules := modules p1; faulty := faulty p1; commands := commands p1;
            os := done.2 |})
      else (ModuleReady, p1)
  end.

End Entry.

(** More environments. *)

Module Scenario.

(** A shell in which the install command makes the two packages importable. *)
Definition pip (cmd : string) (mods : gset string) (files : gmap path node)
  : gset string * gmap path node :=
  if bool_decide (cmd = install_command)
  then ({["cairosvg"; "PIL"]} ∪ mods, files)
  else (mods, files).

(** A shell in which the install command fails. *)
Definition no_network (cmd : string) (mods : gset string) (files : gmap path node)
  : gset string * gmap path node := (mods, files).

(** Everything is installed. *)
Definition ready : process :=
  Process {["cairosvg"; "PIL"; "io"]} (fun _ _ _ => false) [] Demo.fresh.

(** Only the standard library is there. *)
Definition bare : process := Process {["io"]} (fun _ _ _ => false) [] Demo.fresh.

(** cairosvg is installed but the cairo library it loads is not. *)
Definition no_libcairo : process :=
  Process {["PIL"; "io"]} (fun _ _ name => bool_decide (name = "cairosvg")) [] Demo.fresh.

(** cairosvg is not installed, and once installed it cannot load the cairo
    library. *)
Definition libcairo_missing_after_install : process :=
  Process {["PIL"; "io"]}
    (fun _ files name =>
       bool_decide (name = "cairosvg")
       && bool_decide (is_Some (files !! ["site-packages"; "cairosvg"])))
    [] Demo.fresh.

(** A shell in which the install command puts the package on disk. *)
Definition pip_files (cmd : string) (mods : gset string) (files : gmap path node)
  : gset string * gmap path node :=
  (mods, <[ ["site-packages"; "cairosvg"] := Dir ]> files).

(** An older icon is already in place. *)
Definition with_old_icon : world :=
  World (<[ ["assets"; "icons"; "icon.png"] := File [xaa; xbb] ]>
           (<[ ["assets"; "icons"] := Dir ]> Demo.fresh_fs)) [].

(** The path a url names: its components between the slashes. *)
Fixpoint split_on_slash (url : string) : path :=
  match url with
  | "" => [""]
  | String c rest =>
      if Ascii.eqb c "/" then "" :: split_on_slash rest
      else
        match split_on_slash rest with
        | [] => [String c ""]
        | first :: others => String c first :: others
        end
  end.

(** A stand-in for cairosvg that reads the template the url names.  Asked
    for a width and a height that are both not 0 it renders at that size,
    when cairo can make an image of it (1 to 32767 each way) and with an
    error otherwise; asked for 0x0 it takes the size as not given, as
    cairosvg does, and the image has the template's own size, 10x10 for
    every template here.  With only one of the two being 0 cairosvg scales
    the other side in floating point; no run here asks for that and the
    stand-in answers with an error.  The answer is the PNG header of the
    image followed by the bytes of the template. *)
Definition output_size (a b : Z) : option (Z * Z) :=
  if bool_decide (a = 0) && bool_decide (b = 0) then Some (10, 10)
  else if bool_decide (0 < a <= 32767) && bool_decide (0 < b <= 32767) then Some (a, b)
  else None.

Definition file_cairo (w : world) (url : string) (a b : Z) : exn + bytes :=
  match fs w !! split_on_slash url with
  | Some (File svg) =>
      match output_size a b with
      | Some image => inr (Png.header image.1 image.2 ++ svg)
      | None => inl (LibraryError "invalid value for the size of the surface")
      end
  | _ => inl (FileNotFoundError (split_on_slash url))
  end.

(** What the first run with [file_cairo] on [Demo.fresh] leaves behind. *)
Definition after_file_run : world := (main Demo.assets file_cairo Demo.fresh).2.

(** A rasteriser that always fails. *)
Definition broken_cairo (w : world) (url : string) (a b : Z) : exn + bytes :=
  inl (LibraryError "no element found").

(** The same templates as [Demo.fresh], in a directory that already holds
    outputs of another origin. *)
Definition stale : world :=
  World (<[ ["assets"; "splash.png"] := File [xff] ]>
           (<[ ["assets"; "icons"; "favicon.png"] := File [xfe] ]>
              (<[ ["assets"; "icons"] := Dir ]> Demo.fresh_fs))) [].

(** A regular file [data] where the directory [data] of the script
    directory [data/assets] should be. *)
Definition behind_a_file : world := World (<[ ["data"] := File [x00] ]> (<[ [] := Dir ]> ∅)) [].

(** The script directory is a regular file. *)
Definition assets_is_file : world := World (<[ ["assets"] := File [x00] ]> (<[ [] := Dir ]> ∅)) [].

End Scenario.

(** ** Laws of the monad *)

Section Monad.
Context {A B : Type}.
Implicit Types (m : M A) (f : A -> M B).

Lemma bind_ok m f w a w1 : m w = (Ok a, w1) -> bind m f w = f a w1.
Proof. intros H. unfold bind. by rewrite H. Qed.

Lemma bind_raise m f w e w1 : m w = (Raise e, w1) -> bind m f w = (Raise e, w1).
Proof. intros H. unfold bind. by rewrite H. Qed.

Lemma bind_ok_inv m f w b w' :
  bind m f w = (Ok b, w') ->
  exists a w1, m w = (Ok a, w1) /\ f a w1 = (Ok b, w').
Proof.
  unfold bind. destruct (m w) as [[a|e] w1]; intros H; [eauto | discriminate].
Qed.

Lemma bind_raise_inv m f w e w' :
  bind m f w = (Raise e, w') ->
  m w = (Raise e, w') \/ exists a w1, m w = (Ok a, w1) /\ f a w1 = (Raise e, w').
Proof.
  unfold bind. destruct (m w) as [[a|e1] w1]; intros H; [eauto | left; congruence].
Qed.

End Monad.

(** ** Paths *)

Lemma parent_removelast (p : path) : p <> [""] -> Pathlib.parent p = removelast p.
Proof.
  unfold Pathlib.parent. destruct p as [|[|a s] [|c1 p]]; try reflexivity. done.
Qed.

Lemma parent_truediv (p : path) (c : string) :
  c <> "" -> Pathlib.parent (p </> c) = p.
Proof.
  intros Hc. rewrite parent_removelast; [apply removelast_last|].
  unfold Pathlib.truediv. destruct p as [|c0 [|c1 p]]; simpl; congruence.
Qed.

Lemma name_truediv (p : path) (c : string) : Pathlib.name (p </> c) = c.
Proof. apply last_last. Qed.

Lemma truediv_inj (p : path) (c1 c2 : string) : p </> c1 = p </> c2 -> c1 = c2.
Proof. unfold Pathlib.truediv. intros H. apply app_inv_head in H. congruence. Qed.

Lemma truediv_ne_self (p : path) (c : string) : p </> c <> p.
Proof.
  unfold Pathlib.truediv. intros H. apply (f_equal length) in H.
  rewrite length_app in H. simpl in H. lia.
Qed.

Lemma truediv2_ne (p : path) (c1 c2 c3 : string) : p </> c1 </> c2 <> p </> c3.
Proof.
  unfold Pathlib.truediv. intros H. apply (f_equal length) in H.
  rewrite !length_app in H. simpl in H. lia.
Qed.

(** ** Events *)

Lemma events_since_app (w w' : world) (t : list event) :
  trace w' = trace w ++ t -> events_since w w' = t.
Proof. intros H. unfold events_since. rewrite H. apply drop_app_length. Qed.

Lemma rasters_app (t1 t2 : list event) : rasters (t1 ++ t2) = rasters t1 ++ rasters t2.
Proof. apply flat_map_app. Qed.

Lemma writes_app (t1 t2 : list event) : writes (t1 ++ t2) = writes t1 ++ writes t2.
Proof. apply flat_map_app. Qed.

Lemma stdout_app (t1 t2 : list event) : stdout (t1 ++ t2) = stdout t1 ++ stdout t2.
Proof. apply flat_map_app. Qed.

(** ** PNG headers *)

Lemma byte_of_value (z : Z) : Z.of_N (Byte.to_N (Png.byte_of z)) = z mod 256.
Proof.
  unfold Png.byte_of.
  assert (Hb : 0 <= z mod 256 < 256) by (apply Z.mod_pos_bound; lia).
  destruct (Byte.of_N (Z.to_N (z mod 256))) as [b|] eqn:Hof; simpl.
  - apply Byte.to_of_N in Hof. rewrite Hof. apply Z2N.id. lia.
  - apply Byte.of_N_None_iff in Hof. lia.
Qed.

Lemma number_be32 (z : Z) : 0 <= z < 4294967296 -> Png.number (Png.be32 z) = z.
Proof.
  intros Hz. unfold Png.number, Png.be32. simpl. rewrite !byte_of_value.
  rewrite (Z.mod_small (z / 16777216))
    by (split; [apply Z.div_pos; lia | apply Z.div_lt_upper_bound; lia]).
  pose proof (Z.div_mod z 256 ltac:(lia)) as H0.
  pose proof (Z.div_mod (z / 256) 256 ltac:(lia)) as H1.
  pose proof (Z.div_mod (z / 65536) 256 ltac:(lia)) as H2.
  replace (z / 256 / 256) with (z / 65536) in H1
    by (rewrite Z.div_div; [reflexivity | lia | lia]).
  replace (z / 65536 / 256) with (z / 16777216) in H2
    by (rewrite Z.div_div; [reflexivity | lia | lia]).
  lia.
Qed.

(** A file that starts with the header for [wd] x [ht] declares that size. *)
Lemma size_header (wd ht : Z) (rest : bytes) :
  0 <= wd < 4294967296 -> 0 <= ht < 4294967296 ->
  Png.size (Png.header wd ht ++ rest) = Some (wd, ht).
Proof.
  intros Hw Hh. unfold Png.size, Png.header.
  change (take 16 ((Png.preamble ++ Png.be32 wd ++ Png.be32 ht) ++ rest)) with Png.preamble.
  rewrite bool_decide_true by reflexivity.
  rewrite bool_decide_true by (rewrite !length_app; simpl; lia).
  change (take 4 (drop 16 ((Png.preamble ++ Png.be32 wd ++ Png.be32 ht) ++ rest)))
    with (Png.be32 wd).
  change (take 4 (drop 20 ((Png.preamble ++ Png.be32 wd ++ Png.be32 ht) ++ rest)))
    with (Png.be32 ht).
  simpl. by rewrite !number_be32.
Qed.

(** ** The file-system primitives *)

Lemma mkdir_exist_ok (p : path) (w : world) :
  mkdir p false true w =
    let w1 := log (EvMkdir p) w in
    match fs w !! p with
    | Some Dir => (Ok tt, w1)
    | Some (File _) => (Raise (FileExistsError p), w1)
    | None =>
        match fs w !! Pathlib.parent p with
        | Some Dir => (Ok tt, set_fs (insert p Dir) w1)
        | Some (File _) => (Raise (NotADirectoryError p), w1)
        | None => (Raise (missing_parent_error (fs w) p), w1)
        end
    end.
Proof.
  unfold mkdir. destruct (length p); simpl; unfold os_mkdir, bind, emit, is_dir; simpl.
  all: destruct (fs w !! p) as [[|c]|] eqn:Hp; simpl; rewrite ?Hp; try reflexivity.
  all: destruct (fs w !! Pathlib.parent p) as [[|c]|]; simpl;
    unfold log, missing_parent_error; simpl; rewrite ?Hp; try reflexivity.
  all: destruct (blocked_by_file (fs w) [] (Pathlib.parent p)); simpl;
    rewrite ?Hp; reflexivity.
Qed.

Lemma open_wb_eq (p : path) (w : world) :
  open_wb p w =
    let w1 := log (EvOpen p) w in
    if writable (fs w) p then (Ok p, set_fs (insert p (File [])) w1)
    else (Raise (open_wb_error (fs w) p), w1).
Proof.
  unfold open_wb, writable, open_wb_error, bind, emit. simpl.
  destruct (fs w !! p) as [[|c]|]; try reflexivity.
  destruct (fs w !! Pathlib.parent p) as [[|c]|]; reflexivity.
Qed.

(** ** One conversion *)

Section Properties.

Variable assets_dir : path.
Variable cairo : world -> string -> Z -> Z -> exn + bytes.

Lemma convert_eq (s d : path) (wd ht : Z) (w : world) :
  convert_svg_to_png cairo s d wd ht w =
    let w1 := conv_started s d wd ht w in
    match cairo w1 (Pathlib.str s) wd ht with
    | inl e => (Raise e, w1)
    | inr data =>
        if writable (fs w) d then (Ok tt, conv_finished s d wd ht data w)
        else (Raise (open_wb_error (fs w) d), log (EvOpen d) w1)
    end.
Proof.
  unfold convert_svg_to_png, print, svg2png.
  unfold bind at 1 2 3. unfold emit at 1 2. cbv zeta.
  fold (conv_started s d wd ht w).
  destruct (cairo _ _ _ _) as [e|data]; [reflexivity|].
  unfold bind at 1. rewrite open_wb_eq. cbv zeta.
  change (fs (conv_started s d wd ht w)) with (fs w).
  destruct (writable (fs w) d); [|reflexivity].
  unfold fwrite, bind, emit, print, conv_finished, conv_events, conv_started,
    set_fs, log. simpl.
  rewrite lookup_insert_eq. simpl. rewrite insert_insert_eq.
  by rewrite <- !app_assoc.
Qed.

Lemma convert_ok_inv (s d : path) (wd ht : Z) (w w' : world) (u : unit) :
  convert_svg_to_png cairo s d wd ht w = (Ok u, w') ->
  exists data,
    cairo (conv_started s d wd ht w) (Pathlib.str s) wd ht = inr data /\
    writable (fs w) d = true /\
    w' = conv_finished s d wd ht data w.
Proof.
  rewrite convert_eq. cbv zeta.
  destruct (cairo _ _ _ _) as [e|data]; [discriminate|].
  destruct (writable (fs w) d); [|discriminate].
  intros [= <-]. by exists data.
Qed.

Lemma convert_ok_intro (s d : path) (wd ht : Z) (w : world) (data : bytes) :
  cairo (conv_started s d wd ht w) (Pathlib.str s) wd ht = inr data ->
  writable (fs w) d = true ->
  convert_svg_to_png cairo s d wd ht w = (Ok tt, conv_finished s d wd ht data w).
Proof. intros Hc Hw. rewrite convert_eq. cbv zeta. by rewrite Hc, Hw. Qed.

(** A conversion that raises has changed no file; it stopped right after
    asking the rasteriser, or right after failing to open the destination. *)
Lemma convert_raise_inv (s d : path) (wd ht : Z) (w w' : world) (e : exn) :
  convert_svg_to_png cairo s d wd ht w = (Raise e, w') ->
  fs w' = fs w /\
  exists tail,
    trace w' = trace w ++ EvPrint (converting_line s d wd ht)
                 :: EvRaster (Pathlib.str s) wd ht :: tail /\
    (tail = [] \/ tail = [EvOpen d]).
Proof.
  rewrite convert_eq. cbv zeta.
  destruct (cairo _ _ _ _) as [e1|data].
  - intros [= _ <-]. split; [done|]. exists []. split; [|by left].
    unfold conv_started, log. simpl. by rewrite <- app_assoc.
  - destruct (writable (fs w) d); [discriminate|].
    intros [= _ <-]. split; [done|]. exists [EvOpen d]. split; [|by right].
    unfold conv_started, log. simpl. by rewrite <- !app_assoc.
Qed.

Lemma convert_frame (s d : path) (wd ht : Z) (w w' : world) (r : result unit) :
  convert_svg_to_png cairo s d wd ht w = (r, w') ->
  forall p, p <> d -> fs w' !! p = fs w !! p.
Proof.
  intros H p Hp. destruct r as [u|e].
  - apply convert_ok_inv in H as (data & _ & _ & ->). simpl.
    by rewrite lookup_insert_ne.
  - apply convert_raise_inv in H as [-> _]. done.
Qed.

(** ** The batch *)

Lemma run_batch_frame (js : list job) (w w' : world) (r : result unit) :
  run_batch cairo js w = (r, w') ->
  forall p, ~ In p (map dst js) -> fs w' !! p = fs w !! p.
Proof.
  revert w. induction js as [|j rest IH]; intros w H p Hp.
  - by injection H as _ <-.
  - simpl in H, Hp. unfold bind in H.
    destruct (convert_job cairo j w) as [[u|e] w1] eqn:Hj.
    + rewrite (IH w1 H p) by tauto.
      eapply convert_frame; [exact Hj | intuition congruence].
    + injection H as _ <-. eapply convert_frame; [exact Hj | intuition congruence].
Qed.

Lemma run_batch_raise_inv (js : list job) (w w' : world) (e : exn) :
  run_batch cairo js w = (Raise e, w') ->
  exists done j rest w1,
    js = done ++ j :: rest /\
    run_batch cairo done w = (Ok tt, w1) /\
    convert_job cairo j w1 = (Raise e, w').
Proof.
  revert w. induction js as [|j rest IH]; intros w H; [discriminate|].
  simpl in H. apply bind_raise_inv in H as [H | (u & w1 & Hj & H)].
  - exists [], j, rest, w. by repeat split.
  - destruct (IH _ H) as (done & j' & rest' & w2 & -> & Hdone & Hfail).
    exists (j :: done), j', rest', w2. repeat split; [|done].
    simpl. by rewrite (bind_ok _ _ _ _ _ Hj).
Qed.

(** A batch that runs to its end asked the rasteriser once per job, in
    order, wrote one file per job, in order, and every file it wrote still
    holds what was written. *)
Lemma run_batch_ok_inv (js : list job) (w w' : world) (u : unit) :
  NoDup (map dst js) ->
  run_batch cairo js w = (Ok u, w') ->
  exists t,
    trace w' = trace w ++ t /\
    rasters t = map request js /\
    map fst (writes t) = map dst js /\
    (forall p data, In (p, data) (writes t) -> fs w' !! p = Some (File data)).
Proof.
  revert w. induction js as [|j rest IH]; intros w Hnd H.
  - injection H as _ <-. exists []. rewrite app_nil_r. by repeat split.
  - simpl in H. apply bind_ok_inv in H as (u1 & w1 & Hj & H).
    apply NoDup_cons in Hnd as [Hj_fresh Hnd].
    destruct (IH _ Hnd H) as (t & Ht & Hr & Hw & Hkeep).
    apply convert_ok_inv in Hj as (data & _ & _ & ->).
    exists (conv_events (src j) (dst j) (width j) (height j) data ++ t).
    repeat split.
    + rewrite Ht. simpl. by rewrite <- app_assoc.
    + rewrite rasters_app, Hr. reflexivity.
    + rewrite writes_app, map_app, Hw. reflexivity.
    + intros p d. rewrite writes_app. simpl. intros [[= <- <-] | Hin].
      * erewrite run_batch_frame; [| exact H |].
        -- simpl. apply lookup_insert_eq.
        -- by rewrite <- list_elem_of_In.
      * by apply Hkeep.
Qed.

(** ** The paths of the script are pairwise distinct *)

Ltac path_ne :=
  unfold icons_dir, icon_svg, splash_svg;
  first
    [ apply truediv2_ne
    | apply not_eq_sym, truediv2_ne
    | apply truediv_ne_self
    | apply not_eq_sym, truediv_ne_self
    | let H := fresh in intros H; apply truediv_inj in H; discriminate H ].

Lemma batch_dst_NoDup : NoDup (map dst (batch assets_dir)).
Proof.
  unfold batch. simpl. repeat (apply NoDup_cons; split).
  all: rewrite ?list_elem_of_In; simpl; try apply NoDup_nil_2.
  all: intros H; repeat (destruct H as [H|H]); try done; revert H; path_ne.
Qed.

Lemma batch_src_not_dst (j : job) :
  In j (batch assets_dir) -> ~ In (src j) (map dst (batch assets_dir)).
Proof.
  unfold batch. simpl. intros Hj H.
  repeat (destruct Hj as [<-|Hj]); try done; simpl in H.
  all: repeat (destruct H as [H|H]); try done; revert H; path_ne.
Qed.

Lemma icons_dir_not_dst : ~ In (icons_dir assets_dir) (map dst (batch assets_dir)).
Proof.
  unfold batch. simpl. intros H.
  repeat (destruct H as [H|H]); try done; revert H; path_ne.
Qed.

Lemma icon_svg_not_dst : ~ In (icon_svg assets_dir) (map dst (batch assets_dir)).
Proof.
  apply (batch_src_not_dst
           (Job (icon_svg assets_dir) (icons_dir assets_dir </> "icon.png") 1024 1024)).
  unfold batch. simpl. tauto.
Qed.

Lemma splash_svg_not_dst : ~ In (splash_svg assets_dir) (map dst (batch assets_dir)).
Proof.
  apply (batch_src_not_dst
           (Job (splash_svg assets_dir) (assets_dir </> "splash.png") 1284 2778)).
  unfold batch. simpl. tauto.
Qed.

(** ** The directory step *)

Lemma ensure_icons_dir_eq (w : world) :
  ensure_icons_dir assets_dir w =
    let w1 := log (EvMkdir (icons_dir assets_dir)) w in
    match fs w !! icons_dir assets_dir with
    | Some Dir => (Ok tt, w1)
    | Some (File _) => (Raise (FileExistsError (icons_dir assets_dir)), w1)
    | None =>
        match fs w !! assets_dir with
        | Some Dir => (Ok tt, set_fs (insert (icons_dir assets_dir) Dir) w1)
        | Some (File _) => (Raise (NotADirectoryError (icons_dir assets_dir)), w1)
        | None =>
            (Raise (if blocked_by_file (fs w) [] assets_dir
                    then NotADirectoryError (icons_dir assets_dir)
                    else FileNotFoundError (icons_dir assets_dir)), w1)
        end
    end.
Proof.
  unfold ensure_icons_dir. rewrite mkdir_exist_ok.
  unfold missing_parent_error, icons_dir. by rewrite parent_truediv.
Qed.

Lemma ensure_ok_inv (w w0 : world) (u : unit) :
  ensure_icons_dir assets_dir w = (Ok u, w0) ->
  trace w0 = trace w ++ [EvMkdir (icons_dir assets_dir)] /\
  fs w0 !! icons_dir assets_dir = Some Dir /\
  (forall p, p <> icons_dir assets_dir -> fs w0 !! p = fs w !! p) /\
  (fs w !! icons_dir assets_dir = Some Dir /\ fs w0 = fs w \/
   fs w !! icons_dir assets_dir = None /\ fs w !! assets_dir = Some Dir /\
   fs w0 = <[icons_dir assets_dir := Dir]> (fs w)).
Proof.
  rewrite ensure_icons_dir_eq. cbv zeta.
  destruct u.
  destruct (fs w !! icons_dir assets_dir) as [[|c]|] eqn:Hi; try discriminate.
  - intros [= <-]. simpl. split_and!; [done | done | done | by left].
  - destruct (fs w !! assets_dir) as [[|c]|] eqn:Ha; try discriminate.
    intros [= <-]. simpl. split_and!; [done | | | by right].
    + apply lookup_insert_eq.
    + intros p Hp. by rewrite lookup_insert_ne.
Qed.

Lemma ensure_raise_inv (w w0 : world) (e : exn) :
  ensure_icons_dir assets_dir w = (Raise e, w0) ->
  w0 = log (EvMkdir (icons_dir assets_dir)) w /\
  fs w !! icons_dir assets_dir <> Some Dir.
Proof.
  rewrite ensure_icons_dir_eq. cbv zeta.
  destruct (fs w !! icons_dir assets_dir) as [[|c]|] eqn:Hi; try discriminate.
  - by intros [= _ <-].
  - destruct (fs w !! assets_dir) as [[|c]|]; try discriminate; by intros [= _ <-].
Qed.

(** ** The shape of [main] *)

Lemma main_eq (w : world) :
  main assets_dir cairo w =
    match ensure_icons_dir assets_dir w with
    | (Raise e, w0) => (Raise e, w0)
    | (Ok _, w0) =>
        if bool_decide (is_Some (fs w0 !! icon_svg assets_dir)) then
          if bool_decide (is_Some (fs w0 !! splash_svg assets_dir)) then
            match run_batch cairo (batch assets_dir) (checked assets_dir w0) with
            | (Ok _, w5) => (Ok 0, finished w5)
            | (Raise e, w5) => (Raise e, w5)
            end
          else
            (Ok 1, log (EvPrint (not_found_line (splash_svg assets_dir)))
                     (log (EvStat (splash_svg assets_dir) false)
                        (log (EvStat (icon_svg assets_dir) true) w0)))
        else
          (Ok 1, log (EvPrint (not_found_line (icon_svg assets_dir)))
                   (log (EvStat (icon_svg assets_dir) false) w0))
    end.
Proof.
  unfold main. unfold bind at 1.
  destruct (ensure_icons_dir assets_dir w) as [[u|e] w0]; [|reflexivity].
  unfold bind at 1. unfold path_exists at 1. cbv zeta.
  change (fs (log _ w0)) with (fs w0).
  destruct (bool_decide (is_Some (fs w0 !! icon_svg assets_dir))); [|reflexivity].
  cbv [negb]. unfold bind at 1. unfold path_exists at 1. cbv zeta.
  change (fs (log _ w0)) with (fs w0).
  destruct (bool_decide (is_Some (fs w0 !! splash_svg assets_dir))); [|reflexivity].
  cbv [negb]. fold (checked assets_dir w0).
  cbv [batch run_batch convert_job src dst width height bind ret].
  repeat match goal with
  | |- context [match convert_svg_to_png cairo ?s ?d ?a ?b ?v with _ => _ end] =>
      destruct (convert_svg_to_png cairo s d a b v) as [[[]|?] ?]; try reflexivity
  end.
  unfold print, emit, finished, summary_lines, log. simpl.
  by rewrite <- !app_assoc.
Qed.

Lemma convert_extends (s d : path) (wd ht : Z) (w w' : world) (r : result unit) :
  convert_svg_to_png cairo s d wd ht w = (r, w') ->
  exists t, trace w' = trace w ++ t /\ Forall (fun e => is_setup_event e = false) t.
Proof.
  intros H. destruct r as [u|e].
  - apply convert_ok_inv in H as (data & _ & _ & ->). simpl.
    eexists. split; [done|]. unfold conv_events. by repeat constructor.
  - apply convert_raise_inv in H as (_ & tail & -> & Htail).
    eexists. split; [done|]. destruct Htail as [-> | ->]; by repeat constructor.
Qed.

Lemma run_batch_extends (js : list job) (w w' : world) (r : result unit) :
  run_batch cairo js w = (r, w') ->
  exists t, trace w' = trace w ++ t /\ Forall (fun e => is_setup_event e = false) t.
Proof.
  revert w. induction js as [|j rest IH]; intros w H.
  - injection H as _ <-. exists []. by rewrite app_nil_r.
  - simpl in H. unfold bind in H.
    destruct (convert_job cairo j w) as [[u|e] w1] eqn:Hj;
      apply convert_extends in Hj as (t1 & Ht1 & Hs1).
    + apply IH in H as (t2 & Ht2 & Hs2). exists (t1 ++ t2).
      split; [by rewrite Ht2, Ht1, app_assoc | by apply Forall_app].
    + injection H as _ <-. eauto.
Qed.

(** ** The claims *)

(** C5 (amended). Every call [convert_svg_to_png(src, dst, w, h)] asks the
    rasteriser for [src] at exactly output width [w] and output height [h],
    for nothing else and at most once; it changes no path other than [dst]
    and writes to no other path.  When it returns it has asked exactly once
    and [dst] holds exactly the bytes the rasteriser returned for that
    request, whatever was there before: the image has the dimensions the
    rasteriser gave it, which the function neither checks nor changes.  So
    when the rasteriser renders every request whose width and height are
    not 0 at that size, and [w] and [h] are not 0, the PNG at [dst] declares
    exactly [w] x [h]. *)
Theorem convert_svg_to_png_correct (s d : path) (wd ht : Z) (w : world) :
  let r := convert_svg_to_png cairo s d wd ht w in
  let t := events_since w r.2 in
  (forall request, In request (rasters t) -> request = (Pathlib.str s, wd, ht)) /\
  (length (rasters t) <= 1)%nat /\
  (forall p, p <> d -> fs r.2 !! p = fs w !! p) /\
  (forall p data, In (p, data) (writes t) -> p = d) /\
  (r.1 = Ok tt ->
   exists data,
     cairo (conv_started s d wd ht w) (Pathlib.str s) wd ht = inr data /\
     rasters t = [(Pathlib.str s, wd, ht)] /\
     writes t = [(d, data)] /\
     fs r.2 !! d = Some (File data)) /\
  ((forall wc url a b data,
      a <> 0 -> b <> 0 -> cairo wc url a b = inr data -> Png.size data = Some (a, b)) ->
   wd <> 0 -> ht <> 0 -> r.1 = Ok tt ->
   exists content,
     fs r.2 !! d = Some (File content) /\ Png.size content = Some (wd, ht)).
Proof.
  intros r t. subst t.
  destruct r as [res w'] eqn:Hr. subst r. simpl.
  assert (Hras : rasters (events_since w w') = [(Pathlib.str s, wd, ht)]).
  { destruct res as [u|e].
    - apply convert_ok_inv in Hr as (data & _ & _ & ->).
      by rewrite (events_since_app _ _ (conv_events s d wd ht data)).
    - apply convert_raise_inv in Hr as (_ & tail & Ht & Htail).
      rewrite (events_since_app _ _ _ Ht). by destruct Htail as [-> | ->]. }
  split_and!.
  - rewrite Hras. by intros request [<-|[]].
  - by rewrite Hras.
  - by eapply convert_frame.
  - destruct res as [u|e].
    + apply convert_ok_inv in Hr as (data & _ & _ & ->).
      rewrite (events_since_app _ _ (conv_events s d wd ht data)) by done.
      simpl. by intros p data' [[= <- _]|[]].
    + apply convert_raise_inv in Hr as (_ & tail & Ht & Htail).
      rewrite (events_since_app _ _ _ Ht). by destruct Htail as [-> | ->].
  - intros ->. pose proof Hr as Hr'.
    apply convert_ok_inv in Hr' as (data & Hc & _ & ->).
    exists data. rewrite (events_since_app _ _ (conv_events s d wd ht data)) by done.
    simpl. rewrite lookup_insert_eq. by split_and!.
  - intros Hsize Hwd Hht ->. apply convert_ok_inv in Hr as (data & Hc & _ & ->).
    exists data. simpl. rewrite lookup_insert_eq. split; [done|].
    by eapply Hsize.
Qed.

(** A run that got past both checks and did not raise: what it returned and
    what it did. *)
Lemma main_ok_inv (w w' : world) (status : Z) :
  is_Some (fs w !! icon_svg assets_dir) ->
  is_Some (fs w !! splash_svg assets_dir) ->
  main assets_dir cairo w = (Ok status, w') ->
  let t := events_since w w' in
  status = 0 /\
  rasters t = map request (batch assets_dir) /\
  map fst (writes t) = map dst (batch assets_dir) /\
  (forall p data, In (p, data) (writes t) -> fs w' !! p = Some (File data)) /\
  (exists before, stdout t = before ++ summary_lines).
Proof.
  intros Hicon Hsplash H t. subst t. rewrite main_eq in H.
  destruct (ensure_icons_dir assets_dir w) as [[u|e] w0] eqn:He; [|discriminate].
  apply ensure_ok_inv in He as (Ht0 & _ & Hframe & _).
  rewrite !bool_decide_true in H by (rewrite Hframe; [done | path_ne]).
  destruct (run_batch cairo (batch assets_dir) (checked assets_dir w0))
    as [[u5|e] w5] eqn:Hb; [|discriminate].
  injection H as <- <-.
  apply run_batch_ok_inv in Hb as (t & Ht & Hr & Hw & Hkeep);
    [|apply batch_dst_NoDup].
  rewrite (events_since_app _ _
    (EvMkdir (icons_dir assets_dir) :: EvStat (icon_svg assets_dir) true
       :: EvStat (splash_svg assets_dir) true :: t ++ map EvPrint summary_lines)).
  2:{ simpl. rewrite Ht. simpl. rewrite Ht0. by rewrite <- !app_assoc. }
  split_and!.
  - done.
  - simpl. rewrite rasters_app, Hr. reflexivity.
  - simpl. rewrite writes_app, map_app, Hw. reflexivity.
  - intros p data. simpl. rewrite writes_app. simpl. rewrite app_nil_r. apply Hkeep.
  - exists (stdout t). simpl. rewrite stdout_app. reflexivity.
Qed.

(** C1. In every run in which both templates exist and the four conversions
    succeed one after the other, [main] returns 0; it has asked for exactly
    the four rasterisations, in the fixed order and at the fixed sizes, has
    written exactly the four outputs, in that order, each of which holds
    what was written, and the last thing it printed is the summary of the
    four generated paths with their dimensions. *)
Theorem main_success (w w0 w1 w2 w3 w4 : world) :
  is_Some (fs w !! icon_svg assets_dir) ->
  is_Some (fs w !! splash_svg assets_dir) ->
  ensure_icons_dir assets_dir w = (Ok tt, w0) ->
  convert_svg_to_png cairo (icon_svg assets_dir)
    (icons_dir assets_dir </> "icon.png") 1024 1024 (checked assets_dir w0) = (Ok tt, w1) ->
  convert_svg_to_png cairo (icon_svg assets_dir)
    (icons_dir assets_dir </> "adaptive-icon.png") 1024 1024 w1 = (Ok tt, w2) ->
  convert_svg_to_png cairo (icon_svg assets_dir)
    (icons_dir assets_dir </> "favicon.png") 48 48 w2 = (Ok tt, w3) ->
  convert_svg_to_png cairo (splash_svg assets_dir)
    (assets_dir </> "splash.png") 1284 2778 w3 = (Ok tt, w4) ->
  let t := events_since w (finished w4) in
  main assets_dir cairo w = (Ok 0, finished w4) /\
  rasters t =
    [ (Pathlib.str (icon_svg assets_dir), 1024, 1024);
      (Pathlib.str (icon_svg assets_dir), 1024, 1024);
      (Pathlib.str (icon_svg assets_dir), 48, 48);
      (Pathlib.str (splash_svg assets_dir), 1284, 2778) ] /\
  map fst (writes t) =
    [ icons_dir assets_dir </> "icon.png";
      icons_dir assets_dir </> "adaptive-icon.png";
      icons_dir assets_dir </> "favicon.png";
      assets_dir </> "splash.png" ] /\
  (forall p data, In (p, data) (writes t) -> fs w4 !! p = Some (File data)) /\
  (exists before, stdout t = before ++ summary_lines).
Proof.
  intros Hicon Hsplash He H1 H2 H3 H4 t.
  assert (Hmain : main assets_dir cairo w = (Ok 0, finished w4)).
  { rewrite main_eq, He.
    apply ensure_ok_inv in He as (_ & _ & Hframe & _).
    rewrite !bool_decide_true by (rewrite Hframe; [done | path_ne]).
    cbv [batch run_batch convert_job src dst width height].
    rewrite (bind_ok _ _ _ _ _ H1), (bind_ok _ _ _ _ _ H2),
      (bind_ok _ _ _ _ _ H3), (bind_ok _ _ _ _ _ H4).
    reflexivity. }
  split; [exact Hmain|].
  destruct (main_ok_inv w (finished w4) 0 Hicon Hsplash Hmain) as (_ & Hrest).
  exact Hrest.
Qed.

Lemma run_batch_stops (done rest : list job) (j : job) (w w1 w' : world) (e : exn) :
  run_batch cairo done w = (Ok tt, w1) ->
  convert_job cairo j w1 = (Raise e, w') ->
  run_batch cairo (done ++ j :: rest) w = (Raise e, w').
Proof.
  revert w. induction done as [|j0 done IH]; intros w Hdone Hfail.
  - injection Hdone as <-. simpl. by rewrite (bind_raise _ _ _ _ _ Hfail).
  - simpl in Hdone. apply bind_ok_inv in Hdone as (u & w2 & Hj0 & Hdone).
    simpl. rewrite (bind_ok _ _ _ _ _ Hj0). by apply IH.
Qed.

(** What a batch that fails at job [j] has done by then. *)
Lemma failed_batch_events (w w0 w1 w' : world) (done rest : list job) (j : job) (e : exn) :
  ensure_icons_dir assets_dir w = (Ok tt, w0) ->
  batch assets_dir = done ++ j :: rest ->
  run_batch cairo done (checked assets_dir w0) = (Ok tt, w1) ->
  convert_job cairo j w1 = (Raise e, w') ->
  let t := events_since w w' in
  rasters t = map request (done ++ [j]) /\
  map fst (writes t) = map dst done /\
  (forall p data, In (p, data) (writes t) -> fs w' !! p = Some (File data)) /\
  fs w' = fs w1.
Proof.
  intros He Hsplit Hdone Hfail t. subst t.
  apply ensure_ok_inv in He as (Ht0 & _ & _ & _).
  assert (Hnd : NoDup (map dst done)).
  { pose proof batch_dst_NoDup as Hall. rewrite Hsplit, map_app in Hall.
    by apply NoDup_app in Hall as [? _]. }
  apply run_batch_ok_inv in Hdone as (t1 & Ht1 & Hr & Hw & Hkeep); [|done].
  apply convert_raise_inv in Hfail as (Hfs & tail & Ht & Htail).
  assert (Hall : trace w' = trace w ++
    EvMkdir (icons_dir assets_dir) :: EvStat (icon_svg assets_dir) true
      :: EvStat (splash_svg assets_dir) true
      :: t1 ++ EvPrint (converting_line (src j) (dst j) (width j) (height j))
      :: EvRaster (Pathlib.str (src j)) (width j) (height j) :: tail).
  { rewrite Ht, Ht1. simpl. rewrite Ht0. by rewrite <- !app_assoc. }
  rewrite (events_since_app _ _ _ Hall).
  split_and!; try done.
  - simpl. rewrite rasters_app, map_app, Hr. simpl.
    by destruct Htail as [-> | ->].
  - simpl. rewrite writes_app, map_app, Hw. simpl.
    destruct Htail as [-> | ->]; simpl; by rewrite app_nil_r.
  - intros p data. simpl. rewrite writes_app. simpl.
    replace (writes tail) with (@nil (path * bytes)) by (by destruct Htail as [-> | ->]).
    rewrite app_nil_r, Hfs. apply Hkeep.
Qed.

(** Every run that raises after a conversion has been started is a run in
    which one of the four conversions raised. *)
Lemma main_raise_inv (w w' : world) (e : exn) :
  main assets_dir cairo w = (Raise e, w') ->
  rasters (events_since w w') <> [] ->
  exists w0 done j rest w1,
    ensure_icons_dir assets_dir w = (Ok tt, w0) /\
    batch assets_dir = done ++ j :: rest /\
    run_batch cairo done (checked assets_dir w0) = (Ok tt, w1) /\
    convert_job cairo j w1 = (Raise e, w').
Proof.
  intros H Hconv. rewrite main_eq in H.
  destruct (ensure_icons_dir assets_dir w) as [[[]|e0] w0] eqn:He.
  2:{ apply ensure_raise_inv in He as [-> _]. injection H as _ <-.
      exfalso. apply Hconv.
      by rewrite (events_since_app _ _ [EvMkdir (icons_dir assets_dir)]). }
  destruct (bool_decide _); [|discriminate].
  destruct (bool_decide _); [|discriminate].
  destruct (run_batch cairo (batch assets_dir) (checked assets_dir w0))
    as [[u5|e5] w5] eqn:Hb; [discriminate|].
  injection H as <- <-.
  apply run_batch_raise_inv in Hb as (done & j & rest & w1 & Hsplit & Hdone & Hfail).
  by exists w0, done, j, rest, w1.
Qed.

(** C6. In every run in which one of the conversions raises (in the
    rasteriser or when the destination is opened for writing) after the ones
    before it have succeeded, [main] raises that very exception and ends in
    the world the failing conversion left: nothing catches it and nothing
    runs after it.  The rasteriser has been asked for the jobs up to the
    failing one and for no later job, the files written are those of the
    jobs before it, and each of them still holds what was written. *)
Theorem conversion_failure_propagates
  (w w0 w1 w' : world) (done rest : list job) (j : job) (e : exn) :
  is_Some (fs w !! icon_svg assets_dir) ->
  is_Some (fs w !! splash_svg assets_dir) ->
  ensure_icons_dir assets_dir w = (Ok tt, w0) ->
  batch assets_dir = done ++ j :: rest ->
  run_batch cairo done (checked assets_dir w0) = (Ok tt, w1) ->
  convert_job cairo j w1 = (Raise e, w') ->
  let t := events_since w w' in
  main assets_dir cairo w = (Raise e, w') /\
  rasters t = map request (done ++ [j]) /\
  map fst (writes t) = map dst done /\
  (forall p data, In (p, data) (writes t) -> fs w' !! p = Some (File data)) /\
  fs w' = fs w1.
Proof.
  intros Hicon Hsplash He Hsplit Hdone Hfail t.
  split; [|by eapply failed_batch_events].
  rewrite main_eq, He.
  apply ensure_ok_inv in He as (_ & _ & Hframe & _).
  rewrite !bool_decide_true by (rewrite Hframe; [done | path_ne]).
  by rewrite Hsplit, (run_batch_stops _ _ _ _ _ _ _ Hdone Hfail).
Qed.

(** Running a batch again on the file system it left behind: when the
    rasteriser's answer depends only on the template it reads, every
    conversion succeeds again and rewrites its output with the same bytes. *)
Lemma run_batch_again (js : list job) :
  (forall j, In j js -> forall wa wb,
     fs wa !! src j = fs wb !! src j ->
     cairo wa (Pathlib.str (src j)) (width j) (height j)
       = cairo wb (Pathlib.str (src j)) (width j) (height j)) ->
  NoDup (map dst js) ->
  (forall j, In j js -> ~ In (src j) (map dst js)) ->
  forall w w' v t,
    run_batch cairo js w = (Ok tt, w') ->
    trace w' = trace w ++ t ->
    fs v = fs w' ->
    exists v' t',
      run_batch cairo js v = (Ok tt, v') /\
      fs v' = fs v /\
      trace v' = trace v ++ t' /\
      writes t' = writes t.
Proof.
  induction js as [|j rest IH]; intros Hdet Hnd Hsrc w w' v t H Ht Hv.
  - injection H as <-.
    assert (t = []) as ->.
    { apply (app_inv_head (trace w)). by rewrite app_nil_r. }
    exists v, []. by rewrite app_nil_r.
  - simpl in H. apply bind_ok_inv in H as (u1 & w1 & Hj & H).
    apply NoDup_cons in Hnd as [Hj_fresh Hnd].
    rewrite list_elem_of_In in Hj_fresh.
    pose proof (run_batch_frame _ _ _ _ H) as Hframe.
    destruct (run_batch_extends _ _ _ _ H) as (t2 & Ht2 & _).
    apply convert_ok_inv in Hj as (data & Hc & _ & ->).
    assert (Hdst : fs v !! dst j = Some (File data)).
    { rewrite Hv, Hframe by done. simpl. apply lookup_insert_eq. }
    assert (Hsrc_j : fs v !! src j = fs w !! src j).
    { specialize (Hsrc j (or_introl eq_refl)). simpl in Hsrc.
      rewrite Hv, Hframe by tauto. simpl. rewrite lookup_insert_ne; [done|tauto]. }
    assert (Hstep : convert_job cairo j v =
              (Ok tt, conv_finished (src j) (dst j) (width j) (height j) data v)).
    { apply convert_ok_intro.
      - rewrite <- Hc. apply Hdet; [by left | exact Hsrc_j].
      - unfold writable. by rewrite Hdst. }
    assert (Hdet' : forall j', In j' rest -> forall wa wb,
              fs wa !! src j' = fs wb !! src j' ->
              cairo wa (Pathlib.str (src j')) (width j') (height j')
                = cairo wb (Pathlib.str (src j')) (width j') (height j')).
    { intros j' Hj'. apply Hdet. by right. }
    destruct (IH Hdet' Hnd) with
      (w := conv_finished (src j) (dst j) (width j) (height j) data w)
      (w' := w') (v := conv_finished (src j) (dst j) (width j) (height j) data v) (t := t2)
      as (v' & t' & Hrun & Hfs & Htr & Hwr); try done.
    { intros j' Hj' Hin. apply (Hsrc j'); [by right | by right]. }
    { simpl. rewrite insert_id by done. exact Hv. }
    exists v', (conv_events (src j) (dst j) (width j) (height j) data ++ t').
    split_and!.
    + simpl. by rewrite (bind_ok _ _ _ _ _ Hstep).
    + rewrite Hfs. simpl. by rewrite insert_id.
    + rewrite Htr. simpl. by rewrite <- app_assoc.
    + rewrite Ht2 in Ht. simpl in Ht. rewrite <- app_assoc in Ht.
      apply app_inv_head in Ht as <-.
      rewrite !writes_app, Hwr. reflexivity.
Qed.

(** A rasteriser whose answer for each template depends only on what that
    template holds answers each job of the batch accordingly. *)
Lemma batch_reads_templates :
  (forall wa wb a b,
     fs wa !! icon_svg assets_dir = fs wb !! icon_svg assets_dir ->
     cairo wa (Pathlib.str (icon_svg assets_dir)) a b
       = cairo wb (Pathlib.str (icon_svg assets_dir)) a b) ->
  (forall wa wb a b,
     fs wa !! splash_svg assets_dir = fs wb !! splash_svg assets_dir ->
     cairo wa (Pathlib.str (splash_svg assets_dir)) a b
       = cairo wb (Pathlib.str (splash_svg assets_dir)) a b) ->
  forall j, In j (batch assets_dir) -> forall wa wb,
    fs wa !! src j = fs wb !! src j ->
    cairo wa (Pathlib.str (src j)) (width j) (height j)
      = cairo wb (Pathlib.str (src j)) (width j) (height j).
Proof.
  intros Hicon Hsplash j Hj wa wb. unfold batch in Hj. simpl in Hj.
  destruct Hj as [<-|[<-|[<-|[<-|[]]]]]; simpl; auto.
Qed.

(** C7. When the rasteriser's answer for each of the two templates depends
    only on what that template holds (and not on the outputs, on other files
    or on what the run has done so far), a second run on what a first
    successful run left behind succeeds as well,
    finds the icons directory and every output already there, writes the
    same four files again with the same bytes, and leaves the file system
    exactly as the first run left it. *)
Theorem second_run_overwrites (w w1 : world) :
  (forall wa wb a b,
     fs wa !! icon_svg assets_dir = fs wb !! icon_svg assets_dir ->
     cairo wa (Pathlib.str (icon_svg assets_dir)) a b
       = cairo wb (Pathlib.str (icon_svg assets_dir)) a b) ->
  (forall wa wb a b,
     fs wa !! splash_svg assets_dir = fs wb !! splash_svg assets_dir ->
     cairo wa (Pathlib.str (splash_svg assets_dir)) a b
       = cairo wb (Pathlib.str (splash_svg assets_dir)) a b) ->
  main assets_dir cairo w = (Ok 0, w1) ->
  exists w2,
    main assets_dir cairo w1 = (Ok 0, w2) /\
    fs w2 = fs w1 /\
    fs w1 !! icons_dir assets_dir = Some Dir /\
    writes (events_since w1 w2) = writes (events_since w w1) /\
    map fst (writes (events_since w1 w2)) = map dst (batch assets_dir) /\
    (forall p data,
       In (p, data) (writes (events_since w1 w2)) -> fs w1 !! p = Some (File data)).
Proof.
  intros Hicon Hsplash H. pose proof (batch_reads_templates Hicon Hsplash) as Hdet.
  rewrite main_eq in H.
  destruct (ensure_icons_dir assets_dir w) as [[u|e] w0] eqn:He; [|discriminate].
  apply ensure_ok_inv in He as (Ht0 & Hdir & _ & _).
  destruct (bool_decide (is_Some (fs w0 !! icon_svg assets_dir))) eqn:Hi; [|discriminate].
  destruct (bool_decide (is_Some (fs w0 !! splash_svg assets_dir))) eqn:Hs; [|discriminate].
  apply bool_decide_eq_true in Hi, Hs.
  destruct (run_batch cairo (batch assets_dir) (checked assets_dir w0))
    as [[[]|e] w5] eqn:Hb; [|discriminate].
  injection H as <-.
  pose proof (run_batch_frame _ _ _ _ Hb) as Hframe. simpl in Hframe.
  pose proof Hb as Hb'.
  apply run_batch_ok_inv in Hb' as (t & Ht & _ & Hw & Hkeep);
    [|apply batch_dst_NoDup].
  (* the second run *)
  assert (He2 : ensure_icons_dir assets_dir (finished w5) =
                  (Ok tt, log (EvMkdir (icons_dir assets_dir)) (finished w5))).
  { rewrite ensure_icons_dir_eq. simpl.
    by rewrite (Hframe _ icons_dir_not_dst), Hdir. }
  set (v0 := log (EvMkdir (icons_dir assets_dir)) (finished w5)) in *.
  destruct (run_batch_again (batch assets_dir) Hdet batch_dst_NoDup batch_src_not_dst
              (checked assets_dir w0) w5 (checked assets_dir v0) t Hb Ht eq_refl)
    as (v5 & t' & Hrun & Hfs & Htr & Hwr).
  exists (finished v5).
  assert (Hmain : main assets_dir cairo (finished w5) = (Ok 0, finished v5)).
  { rewrite main_eq, He2.
    rewrite !bool_decide_true.
    - by rewrite Hrun.
    - simpl. by rewrite (Hframe _ splash_svg_not_dst).
    - simpl. by rewrite (Hframe _ icon_svg_not_dst). }
  assert (Hev1 : events_since w (finished w5) =
    EvMkdir (icons_dir assets_dir) :: EvStat (icon_svg assets_dir) true
      :: EvStat (splash_svg assets_dir) true :: t ++ map EvPrint summary_lines).
  { apply events_since_app. simpl. rewrite Ht. simpl. rewrite Ht0.
    by rewrite <- !app_assoc. }
  assert (Hev2 : events_since (finished w5) (finished v5) =
    EvMkdir (icons_dir assets_dir) :: EvStat (icon_svg assets_dir) true
      :: EvStat (splash_svg assets_dir) true :: t' ++ map EvPrint summary_lines).
  { apply events_since_app. simpl. rewrite Htr. simpl.
    by rewrite <- !app_assoc. }
  rewrite Hev1, Hev2. simpl. rewrite !writes_app. simpl. rewrite !app_nil_r.
  split_and!; try done.
  - by rewrite (Hframe _ icons_dir_not_dst).
  - by rewrite Hwr.
  - intros p data. rewrite Hwr. apply Hkeep.
Qed.

(** C8. In every run that finds the icons directory already there, the
    directory step returns without changing the file system, and whatever
    happens afterwards every path other than the four outputs is left as it
    was: in particular every entry of the icons directory other than
    icon.png, adaptive-icon.png and favicon.png. *)
Theorem existing_icons_dir_kept (w : world) :
  fs w !! icons_dir assets_dir = Some Dir ->
  ensure_icons_dir assets_dir w = (Ok tt, log (EvMkdir (icons_dir assets_dir)) w) /\
  (forall p,
     ~ In p [ icons_dir assets_dir </> "icon.png";
              icons_dir assets_dir </> "adaptive-icon.png";
              icons_dir assets_dir </> "favicon.png";
              assets_dir </> "splash.png" ] ->
     fs (main assets_dir cairo w).2 !! p = fs w !! p) /\
  (forall c : string,
     c <> "icon.png" -> c <> "adaptive-icon.png" -> c <> "favicon.png" ->
     fs (main assets_dir cairo w).2 !! (icons_dir assets_dir </> c)
       = fs w !! (icons_dir assets_dir </> c)).
Proof.
  intros Hdir.
  assert (He : ensure_icons_dir assets_dir w
                 = (Ok tt, log (EvMkdir (icons_dir assets_dir)) w)).
  { rewrite ensure_icons_dir_eq. by rewrite Hdir. }
  assert (Hframe : forall p, ~ In p (map dst (batch assets_dir)) ->
            fs (main assets_dir cairo w).2 !! p = fs w !! p).
  { intros p Hp. rewrite main_eq, He.
    destruct (bool_decide _); [|done].
    destruct (bool_decide _); [|done].
    destruct (run_batch cairo (batch assets_dir) _) as [[u5|e] w5] eqn:Hb;
      simpl; by rewrite (run_batch_frame _ _ _ _ Hb p Hp). }
  split_and!; [done | exact Hframe |].
  intros c H1 H2 H3. apply Hframe. simpl.
  intros [H|[H|[H|[H|[]]]]].
  - apply truediv_inj in H. congruence.
  - apply truediv_inj in H. congruence.
  - apply truediv_inj in H. congruence.
  - revert H. apply not_eq_sym. unfold icons_dir. apply truediv2_ne.
Qed.

(** The events of a run in which the directory step returned. *)
Lemma main_events_after_ensure (w w0 : world) :
  ensure_icons_dir assets_dir w = (Ok tt, w0) ->
  let r := main assets_dir cairo w in
  let icon := icon_svg assets_dir in
  let splash := splash_svg assets_dir in
  (fs w !! icon = None /\
   r = (Ok 1, log (EvPrint (not_found_line icon)) (log (EvStat icon false) w0)) /\
   events_since w r.2 =
     [EvMkdir (icons_dir assets_dir); EvStat icon false; EvPrint (not_found_line icon)]) \/
  (is_Some (fs w !! icon) /\ fs w !! splash = None /\
   r = (Ok 1, log (EvPrint (not_found_line splash))
                (log (EvStat splash false) (log (EvStat icon true) w0))) /\
   events_since w r.2 =
     [EvMkdir (icons_dir assets_dir); EvStat icon true; EvStat splash false;
      EvPrint (not_found_line splash)]) \/
  (is_Some (fs w !! icon) /\ is_Some (fs w !! splash) /\
   exists tail,
     events_since w r.2 =
       EvMkdir (icons_dir assets_dir) :: EvStat icon true :: EvStat splash true :: tail /\
     Forall (fun e => is_setup_event e = false) tail).
Proof.
  intros He r icon splash. subst r icon splash. rewrite main_eq, He.
  apply ensure_ok_inv in He as (Ht0 & _ & Hframe & _).
  rewrite <- (Hframe (icon_svg assets_dir)) by path_ne.
  rewrite <- (Hframe (splash_svg assets_dir)) by path_ne.
  destruct (fs w0 !! icon_svg assets_dir) as [ni|] eqn:Hi.
  2:{ left. rewrite bool_decide_false by (by intros [? ?]).
      split_and!; [done | done |]. apply events_since_app. simpl. rewrite Ht0.
      by rewrite <- !app_assoc. }
  right. rewrite bool_decide_true by eauto.
  destruct (fs w0 !! splash_svg assets_dir) as [ns|] eqn:Hs.
  2:{ left. rewrite bool_decide_false by (by intros [? ?]).
      split_and!; [eauto | done | done |]. apply events_since_app. simpl. rewrite Ht0.
      by rewrite <- !app_assoc. }
  right. rewrite bool_decide_true by eauto.
  split_and!; [eauto | eauto |].
  destruct (run_batch cairo (batch assets_dir) (checked assets_dir w0))
    as [[u5|e] w5] eqn:Hb; apply run_batch_extends in Hb as (t & Ht & Hsetup).
  - exists (t ++ map EvPrint summary_lines). split.
    + apply events_since_app. simpl. rewrite Ht. simpl. rewrite Ht0.
      by rewrite <- !app_assoc.
    + apply Forall_app. split; [done|]. unfold summary_lines. by repeat constructor.
  - exists t. split; [|done].
    apply events_since_app. simpl. rewrite Ht. simpl. rewrite Ht0.
    by rewrite <- !app_assoc.
Qed.

(** A run in which the directory step raised did nothing else. *)
Lemma main_after_failed_ensure (w w0 : world) (e : exn) :
  ensure_icons_dir assets_dir w = (Raise e, w0) ->
  main assets_dir cairo w = (Raise e, log (EvMkdir (icons_dir assets_dir)) w) /\
  events_since w (main assets_dir cairo w).2 = [EvMkdir (icons_dir assets_dir)].
Proof.
  intros He. rewrite main_eq, He. apply ensure_raise_inv in He as [-> _].
  split; [done|]. by apply events_since_app.
Qed.

(** Whatever happens, [main] changes no path besides the icons directory and
    the four outputs. *)
Lemma main_frame (w : world) (p : path) :
  p <> icons_dir assets_dir ->
  ~ In p (map dst (batch assets_dir)) ->
  fs (main assets_dir cairo w).2 !! p = fs w !! p.
Proof.
  intros Hp Hout. rewrite main_eq.
  destruct (ensure_icons_dir assets_dir w) as [[[]|e] w0] eqn:He.
  - apply ensure_ok_inv in He as (_ & _ & Hframe & _).
    rewrite <- (Hframe p Hp).
    destruct (bool_decide _); [|done].
    destruct (bool_decide _); [|done].
    destruct (run_batch cairo (batch assets_dir) _) as [[u5|e] w5] eqn:Hb;
      simpl; by rewrite (run_batch_frame _ _ _ _ Hb p Hout).
  - by apply ensure_raise_inv in He as [-> _].
Qed.

(** C9. In every run, a conversion event is preceded by the directory step
    and by both checks, each of which found its template, and no check
    comes after it; and in every run that starts without
    PLACEHOLDER_SPLASH.svg no conversion event occurs at all, nothing is
    written, and no path other than the icons directory changes. *)
Theorem checks_precede_conversions (w : world) :
  let w' := (main assets_dir cairo w).2 in
  let t := events_since w w' in
  (existsb is_conversion_event t = true ->
   exists tail,
     t = EvMkdir (icons_dir assets_dir) :: EvStat (icon_svg assets_dir) true
           :: EvStat (splash_svg assets_dir) true :: tail /\
     Forall (fun e => is_setup_event e = false) tail) /\
  (fs w !! splash_svg assets_dir = None ->
   existsb is_conversion_event t = false /\
   rasters t = [] /\
   writes t = [] /\
   forall p, p <> icons_dir assets_dir -> fs w' !! p = fs w !! p).
Proof.
  intros w' t. subst w' t.
  destruct (ensure_icons_dir assets_dir w) as [[[]|e] w0] eqn:He.
  - destruct (main_events_after_ensure w w0 He)
      as [(Hi & Hr & Ht) | [(Hi & Hs & Hr & Ht) | (Hi & Hs & tail & Ht & Hsetup)]];
      rewrite Ht.
    + split; [discriminate|]. intros _. split_and!; try done.
      intros p Hp. rewrite Hr. simpl.
      by apply ensure_ok_inv in He as (_ & _ & Hframe & _); apply Hframe.
    + split; [discriminate|]. intros _. split_and!; try done.
      intros p Hp. rewrite Hr. simpl.
      by apply ensure_ok_inv in He as (_ & _ & Hframe & _); apply Hframe.
    + split; [eauto|]. intros Hnone. rewrite Hnone in Hs. by destruct Hs.
  - destruct (main_after_failed_ensure w w0 e He) as [Hr Ht]. rewrite Ht.
    split; [discriminate|]. intros _. split_and!; try done.
    intros p _. by rewrite Hr.
Qed.

(** C2 (amended). In every run that starts without PLACEHOLDER_ICON.svg no
    conversion is attempted, nothing is written, no path other than the
    icons directory changes and the process ends with status 1; and when
    the directory step does not raise, [main] prints the error line naming
    the missing path, and only that, and returns 1. *)
Theorem missing_icon_exits_1 (w : world) :
  fs w !! icon_svg assets_dir = None ->
  let r := main assets_dir cairo w in
  let t := events_since w r.2 in
  existsb is_conversion_event t = false /\
  rasters t = [] /\
  writes t = [] /\
  (forall p, p <> icons_dir assets_dir -> fs r.2 !! p = fs w !! p) /\
  (exit_main assets_dir cairo w).1 = 1 /\
  (forall w0,
     ensure_icons_dir assets_dir w = (Ok tt, w0) ->
     r = (Ok 1, log (EvPrint (not_found_line (icon_svg assets_dir)))
                  (log (EvStat (icon_svg assets_dir) false) w0)) /\
     stdout t = [not_found_line (icon_svg assets_dir)]).
Proof.
  intros Hnone r t. subst r t. unfold exit_main.
  destruct (ensure_icons_dir assets_dir w) as [[[]|e] w0] eqn:He.
  - destruct (main_events_after_ensure w w0 He)
      as [(Hi & Hr & Ht) | [(Hi & _) | (Hi & _)]];
      [| rewrite Hnone in Hi; by destruct Hi ..].
    rewrite Ht, Hr. simpl. split_and!; try done.
    + intros p Hp. by apply ensure_ok_inv in He as (_ & _ & Hframe & _); apply Hframe.
    + by intros ? [= <-].
  - destruct (main_after_failed_ensure w w0 e He) as [Hr Ht]. rewrite Ht, Hr.
    simpl. split_and!; try done.
Qed.

(** C3 (amended). In every run that starts without PLACEHOLDER_SPLASH.svg no
    conversion is attempted and the process ends with status 1; and when
    the directory step does not raise, [main] returns 1, the file system is
    as the directory step left it, and the run ends with the failed check
    (of the icon when that is missing too, of the splash otherwise) followed
    by its error line: nothing comes after. *)
Theorem missing_splash_exits_1 (w : world) :
  fs w !! splash_svg assets_dir = None ->
  let r := main assets_dir cairo w in
  let t := events_since w r.2 in
  existsb is_conversion_event t = false /\
  (exit_main assets_dir cairo w).1 = 1 /\
  (forall w0,
     ensure_icons_dir assets_dir w = (Ok tt, w0) ->
     r.1 = Ok 1 /\
     fs r.2 = fs w0 /\
     exists checks p,
       t = EvMkdir (icons_dir assets_dir)
             :: checks ++ [EvStat p false; EvPrint (not_found_line p)] /\
       (checks = [] /\ p = icon_svg assets_dir \/
        checks = [EvStat (icon_svg assets_dir) true] /\ p = splash_svg assets_dir)).
Proof.
  intros Hnone r t. subst r t. unfold exit_main.
  destruct (ensure_icons_dir assets_dir w) as [[[]|e] w0] eqn:He.
  - destruct (main_events_after_ensure w w0 He)
      as [(Hi & Hr & Ht) | [(Hi & Hs & Hr & Ht) | (_ & Hs & _)]];
      [| | rewrite Hnone in Hs; by destruct Hs]; rewrite Ht, Hr; simpl.
    + split_and!; try done. intros ? [= <-]. split_and!; try done.
      exists [], (icon_svg assets_dir). split; [done | by left].
    + split_and!; try done. intros ? [= <-]. split_and!; try done.
      exists [EvStat (icon_svg assets_dir) true], (splash_svg assets_dir).
      split; [done | by right].
  - destruct (main_after_failed_ensure w w0 e He) as [Hr Ht]. rewrite Ht, Hr.
    simpl. split_and!; try done.
Qed.

(** C4 (amended). The directory step creates the icons directory when it is
    missing and the script directory exists; it creates no parent: when the
    script directory is missing too it raises and creates nothing
    ([FileNotFoundError], or [NotADirectoryError] when the script directory
    is missing because a regular file stands on the way to it).  It does not
    raise when the icons directory is already there, and leaves the file
    system as it is; and once it has returned, running it again returns and
    changes nothing. *)
Theorem ensure_icons_dir_spec (w : world) :
  let r := ensure_icons_dir assets_dir w in
  (fs w !! icons_dir assets_dir = None -> fs w !! assets_dir = Some Dir ->
   r.1 = Ok tt /\ fs r.2 = <[icons_dir assets_dir := Dir]> (fs w)) /\
  (fs w !! icons_dir assets_dir = None -> fs w !! assets_dir = None ->
   r.1 = Raise (if blocked_by_file (fs w) [] assets_dir
                then NotADirectoryError (icons_dir assets_dir)
                else FileNotFoundError (icons_dir assets_dir)) /\
   fs r.2 = fs w) /\
  (fs w !! icons_dir assets_dir = Some Dir ->
   r.1 = Ok tt /\ fs r.2 = fs w) /\
  (r.1 = Ok tt ->
   (ensure_icons_dir assets_dir r.2).1 = Ok tt /\
   fs (ensure_icons_dir assets_dir r.2).2 = fs r.2).
Proof.
  intros r. subst r. split_and!.
  - intros Hi Ha. rewrite ensure_icons_dir_eq. cbv zeta. by rewrite Hi, Ha.
  - intros Hi Ha. rewrite ensure_icons_dir_eq. cbv zeta. by rewrite Hi, Ha.
  - intros Hi. rewrite ensure_icons_dir_eq. cbv zeta. by rewrite Hi.
  - destruct (ensure_icons_dir assets_dir w) as [[[]|e] w0] eqn:He; [|discriminate].
    intros _. simpl. apply ensure_ok_inv in He as (_ & Hdir & _ & _).
    rewrite ensure_icons_dir_eq. cbv zeta. by rewrite Hdir.
Qed.

(** C10 (amended). The directory step is the first thing every run does,
    before either check; in every run in which it does not raise, the icons
    directory exists afterwards, and when such a run ends with status 1
    because a template is missing, the file system is exactly what the
    directory step left: the directory has been created if it was missing,
    and nothing else has changed. *)
Theorem icons_dir_created_first (w : world) :
  let r := main assets_dir cairo w in
  (exists tail,
     events_since w r.2 = EvMkdir (icons_dir assets_dir) :: tail /\
     Forall (fun e => match e with EvMkdir _ => False | _ => True end) tail) /\
  (forall w0,
     ensure_icons_dir assets_dir w = (Ok tt, w0) ->
     fs r.2 !! icons_dir assets_dir = Some Dir /\
     (fs w !! icon_svg assets_dir = None \/ fs w !! splash_svg assets_dir = None ->
      r.1 = Ok 1 /\
      fs r.2 = fs w0 /\
      (fs w !! icons_dir assets_dir = None ->
       fs r.2 = <[icons_dir assets_dir := Dir]> (fs w)))).
Proof.
  intros r. subst r.
  destruct (ensure_icons_dir assets_dir w) as [[[]|e] w0] eqn:He.
  - pose proof (ensure_ok_inv _ _ _ He) as (_ & Hdir & Hframe & Hcases).
    assert (Hnew : fs w !! icons_dir assets_dir = None ->
                   fs w0 = <[icons_dir assets_dir := Dir]> (fs w)).
    { intros Hn. destruct Hcases as [[Hd _] | (_ & _ & ->)]; [congruence | done]. }
    destruct (main_events_after_ensure w w0 He)
      as [(Hi & Hr & Ht) | [(Hi & Hs & Hr & Ht) | (Hi & Hs & tail & Ht & Hsetup)]];
      rewrite Ht.
    + split; [eexists; split; [done | by repeat constructor]|].
      intros ? [= <-]. rewrite Hr. simpl. by split_and!.
    + split; [eexists; split; [done | by repeat constructor]|].
      intros ? [= <-]. rewrite Hr. simpl. by split_and!.
    + split.
      * exists (EvStat (icon_svg assets_dir) true
                 :: EvStat (splash_svg assets_dir) true :: tail).
        split; [done|]. do 2 (constructor; [done|]).
        eapply Forall_impl; [exact Hsetup|]. by intros [].
      * intros ? [= <-]. split.
        -- rewrite main_eq, He.
           do 2 (destruct (bool_decide _); [|simpl; done]).
           destruct (run_batch cairo (batch assets_dir) _) as [[u5|e] w5] eqn:Hb;
             simpl; by rewrite (run_batch_frame _ _ _ _ Hb _ icons_dir_not_dst).
        -- intros [Hn | Hn]; [rewrite Hn in Hi; by destruct Hi
                             | rewrite Hn in Hs; by destruct Hs].
  - destruct (main_after_failed_ensure w w0 e He) as [Hr Ht]. rewrite Ht.
    split; [eexists; split; [done | constructor]|]. intros ? [=].
Qed.

End Properties.

(** ** The theorems at work, and the runs that do not fit the claims *)


Lemma file_cairo_honours_size (wc : world) (url : string) (a b : Z) (data : bytes) :
  a <> 0 -> b <> 0 ->
  Scenario.file_cairo wc url a b = inr data -> Png.size data = Some (a, b).
Proof.
  intros Ha Hb. unfold Scenario.file_cairo, Scenario.output_size.
  destruct (fs wc !! Scenario.split_on_slash url) as [[|svg]|]; try discriminate.
  rewrite (bool_decide_false (a = 0)) by done. cbn [andb].
  destruct (bool_decide (0 < a <= 32767)) eqn:Hra; [|discriminate].
  destruct (bool_decide (0 < b <= 32767)) eqn:Hrb; [|discriminate].
  apply bool_decide_eq_true in Hra, Hrb. cbn [andb fst snd].
  intros [= <-]. apply size_header; lia.
Qed.

Lemma convert_svg_to_png_correct_witness :
  let s := ["assets"; "PLACEHOLDER_ICON.svg"] in
  let d := ["assets"; "icons"; "icon.png"] in
  let r := convert_svg_to_png Scenario.file_cairo s d 1024 1024 Scenario.with_old_icon in
  fs Scenario.with_old_icon !! d = Some (File [xaa; xbb]) /\
  r.1 = Ok tt /\
  rasters (events_since Scenario.with_old_icon r.2)
    = [("assets/PLACEHOLDER_ICON.svg", 1024, 1024)] /\
  fs r.2 !! d = Some (File (Png.header 1024 1024 ++ [x49])) /\
  exists content,
    fs r.2 !! d = Some (File content) /\ Png.size content = Some (1024, 1024).
Proof.
  intros s d r.
  destruct (convert_svg_to_png_correct Scenario.file_cairo s d 1024 1024
              Scenario.with_old_icon) as (_ & _ & _ & _ & Hok & Hsize).
  assert (Hret : r.1 = Ok tt) by (vm_compute; reflexivity).
  destruct (Hok Hret) as (data & Hc & Hr & _ & Hfs).
  vm_compute in Hc. injection Hc as <-.
  split_and!; [vm_compute; reflexivity | exact Hret | exact Hr | |].
  - subst r. rewrite Hfs. vm_compute. reflexivity.
  - apply Hsize; [apply file_cairo_honours_size | discriminate | discriminate | exact Hret].
Defined.

Lemma main_success_witness :
  let t := events_since Demo.fresh (finished Demo.step4) in
  main Demo.assets Demo.cairo Demo.fresh = (Ok 0, finished Demo.step4) /\
  rasters t =
    [ ("assets/PLACEHOLDER_ICON.svg", 1024, 1024);
      ("assets/PLACEHOLDER_ICON.svg", 1024, 1024);
      ("assets/PLACEHOLDER_ICON.svg", 48, 48);
      ("assets/PLACEHOLDER_SPLASH.svg", 1284, 2778) ] /\
  map fst (writes t) =
    [ ["assets"; "icons"; "icon.png"];
      ["assets"; "icons"; "adaptive-icon.png"];
      ["assets"; "icons"; "favicon.png"];
      ["assets"; "splash.png"] ] /\
  (exists before, stdout t = before ++ summary_lines).
Proof.
  intros t. subst t.
  destruct (main_success Demo.assets Demo.cairo Demo.fresh
              Demo.step0 Demo.step1 Demo.step2 Demo.step3 Demo.step4)
    as (Hmain & Hr & Hw & _ & Hout).
  - vm_compute. eexists. reflexivity.
  - vm_compute. eexists. reflexivity.
  - vm_compute. reflexivity.
  - vm_compute. reflexivity.
  - vm_compute. reflexivity.
  - vm_compute. reflexivity.
  - vm_compute. reflexivity.
  - vm_compute in Hr, Hw. split_and!; [exact Hmain | | | exact Hout].
    + vm_compute. exact Hr.
    + vm_compute. exact Hw.
Defined.

Lemma conversion_failure_propagates_witness :
  let e := LibraryError "cairo: out of memory" in
  let w' := Demo.after_failed_favicon in
  let t := events_since Demo.fresh w' in
  main Demo.assets Demo.cairo_no_favicon Demo.fresh = (Raise e, w') /\
  rasters t =
    [ ("assets/PLACEHOLDER_ICON.svg", 1024, 1024);
      ("assets/PLACEHOLDER_ICON.svg", 1024, 1024);
      ("assets/PLACEHOLDER_ICON.svg", 48, 48) ] /\
  map fst (writes t) =
    [ ["assets"; "icons"; "icon.png"]; ["assets"; "icons"; "adaptive-icon.png"] ] /\
  fs w' !! ["assets"; "icons"; "icon.png"] = Some (File [x02]) /\
  fs w' !! ["assets"; "icons"; "adaptive-icon.png"] = Some (File [x02]).
Proof.
  intros e w' t. subst t.
  destruct (conversion_failure_propagates Demo.assets Demo.cairo_no_favicon
              Demo.fresh Demo.step0 Demo.failed_step2 w'
              [ Job ["assets"; "PLACEHOLDER_ICON.svg"] ["assets"; "icons"; "icon.png"]
                  1024 1024;
                Job ["assets"; "PLACEHOLDER_ICON.svg"]
                  ["assets"; "icons"; "adaptive-icon.png"] 1024 1024 ]
              [ Job ["assets"; "PLACEHOLDER_SPLASH.svg"] ["assets"; "splash.png"]
                  1284 2778 ]
              (Job ["assets"; "PLACEHOLDER_ICON.svg"] ["assets"; "icons"; "favicon.png"]
                 48 48)
              e)
    as (Hmain & Hr & Hw & Hkeep & _).
  - vm_compute. eexists. reflexivity.
  - vm_compute. eexists. reflexivity.
  - vm_compute. reflexivity.
  - reflexivity.
  - vm_compute. reflexivity.
  - vm_compute. reflexivity.
  - vm_compute in Hr, Hw.
    split_and!; [exact Hmain | vm_compute; exact Hr | vm_compute; exact Hw | |].
    + apply Hkeep. vm_compute. left. reflexivity.
    + apply Hkeep. vm_compute. right. left. reflexivity.
Defined.

(** The same on a failure of the write step: [splash.png] is a directory, so
    the last conversion cannot open it; the three icons stay. *)
Example write_failure_keeps_icons :
  let r := main Demo.assets Demo.cairo Demo.splash_png_is_dir in
  r.1 = Raise (IsADirectoryError ["assets"; "splash.png"]) /\
  fs r.2 !! ["assets"; "icons"; "icon.png"] = Some (File [x02]) /\
  fs r.2 !! ["assets"; "icons"; "adaptive-icon.png"] = Some (File [x02]) /\
  fs r.2 !! ["assets"; "icons"; "favicon.png"] = Some (File [x01]) /\
  fs r.2 !! ["assets"; "splash.png"] = Some Dir.
Proof. vm_compute. split_and!; reflexivity. Qed.

Lemma file_cairo_reads_template (p : path) (wa wb : world) (a b : Z) :
  Scenario.split_on_slash (Pathlib.str p) = p ->
  fs wa !! p = fs wb !! p ->
  Scenario.file_cairo wa (Pathlib.str p) a b = Scenario.file_cairo wb (Pathlib.str p) a b.
Proof. intros Hsplit Hfs. unfold Scenario.file_cairo. by rewrite Hsplit, Hfs. Qed.

Lemma second_run_overwrites_witness :
  exists w2,
    main Demo.assets Scenario.file_cairo Scenario.after_file_run = (Ok 0, w2) /\
    fs w2 = fs Scenario.after_file_run /\
    writes (events_since Scenario.after_file_run w2)
      = writes (events_since Demo.fresh Scenario.after_file_run).
Proof.
  destruct (second_run_overwrites Demo.assets Scenario.file_cairo
              Demo.fresh Scenario.after_file_run)
    as (w2 & Hmain & Hfs & _ & Hw & _).
  - intros wa wb a b. apply file_cairo_reads_template. vm_compute. reflexivity.
  - intros wa wb a b. apply file_cairo_reads_template. vm_compute. reflexivity.
  - vm_compute. reflexivity.
  - exists w2. split_and!; [exact Hmain | exact Hfs | exact Hw].
Defined.

Lemma existing_icons_dir_kept_witness :
  let r := main Demo.assets Demo.cairo Demo.with_icons_dir in
  ensure_icons_dir Demo.assets Demo.with_icons_dir
    = (Ok tt, log (EvMkdir ["assets"; "icons"]) Demo.with_icons_dir) /\
  fs r.2 !! ["assets"; "icons"; "README.txt"] = Some (File [x68; x69]).
Proof.
  intros r.
  destruct (existing_icons_dir_kept Demo.assets Demo.cairo Demo.with_icons_dir)
    as (He & _ & Hkeep).
  - vm_compute. reflexivity.
  - split; [exact He|].
    change (["assets"; "icons"; "README.txt"]) with (icons_dir Demo.assets </> "README.txt").
    subst r. rewrite Hkeep by discriminate. vm_compute. reflexivity.
Defined.

Lemma missing_icon_exits_1_witness :
  let r := main Demo.assets Demo.cairo Demo.no_icon in
  r.1 = Ok 1 /\
  stdout (events_since Demo.no_icon r.2) = ["Error: assets/PLACEHOLDER_ICON.svg not found!"] /\
  writes (events_since Demo.no_icon r.2) = [] /\
  rasters (events_since Demo.no_icon r.2) = [].
Proof.
  intros r.
  destruct (missing_icon_exits_1 Demo.assets Demo.cairo Demo.no_icon)
    as (_ & Hr & Hw & _ & _ & Hret).
  - vm_compute. reflexivity.
  - destruct (Hret (set_fs (insert ["assets"; "icons"] Dir)
                      (log (EvMkdir ["assets"; "icons"]) Demo.no_icon)))
      as [Hmain Hout].
    + vm_compute. reflexivity.
    + subst r. split_and!; [by rewrite Hmain | | exact Hw | exact Hr].
      rewrite Hout. vm_compute. reflexivity.
Defined.

Lemma missing_splash_exits_1_witness :
  let r := main Demo.assets Demo.cairo Demo.no_splash in
  r.1 = Ok 1 /\
  existsb is_conversion_event (events_since Demo.no_splash r.2) = false /\
  (exit_main Demo.assets Demo.cairo Demo.no_splash).1 = 1.
Proof.
  intros r.
  destruct (missing_splash_exits_1 Demo.assets Demo.cairo Demo.no_splash)
    as (Hconv & Hexit & Hret).
  - vm_compute. reflexivity.
  - destruct (Hret (set_fs (insert ["assets"; "icons"] Dir)
                      (log (EvMkdir ["assets"; "icons"]) Demo.no_splash)))
      as (Hmain & _).
    + vm_compute. reflexivity.
    + split_and!; [exact Hmain | exact Hconv | exact Hexit].
Defined.

Lemma ensure_icons_dir_spec_witness :
  let r := ensure_icons_dir Demo.assets Demo.fresh in
  r.1 = Ok tt /\
  fs r.2 = <[ ["assets"; "icons"] := Dir ]> Demo.fresh_fs /\
  (ensure_icons_dir Demo.assets r.2).1 = Ok tt /\
  fs (ensure_icons_dir Demo.assets r.2).2 = fs r.2.
Proof.
  intros r.
  destruct (ensure_icons_dir_spec Demo.assets Demo.fresh) as (Hnew & _ & _ & Hagain).
  destruct Hnew as [Hok Hfs]; [vm_compute; reflexivity | vm_compute; reflexivity |].
  destruct (Hagain Hok) as [Hok2 Hfs2].
  split_and!; [exact Hok | exact Hfs | exact Hok2 | exact Hfs2].
Defined.

Lemma checks_precede_conversions_witness :
  exists tail,
    events_since Demo.fresh (main Demo.assets Demo.cairo Demo.fresh).2 =
      EvMkdir (icons_dir Demo.assets) :: EvStat (icon_svg Demo.assets) true
        :: EvStat (splash_svg Demo.assets) true :: tail /\
    Forall (fun e => is_setup_event e = false) tail.
Proof.
  destruct (checks_precede_conversions Demo.assets Demo.cairo Demo.fresh) as [Hfirst _].
  apply Hfirst. vm_compute. reflexivity.
Defined.

Lemma icons_dir_created_first_witness :
  let r := main Demo.assets Demo.cairo Demo.no_icon in
  fs Demo.no_icon !! ["assets"; "icons"] = None /\
  r.1 = Ok 1 /\
  fs r.2 !! ["assets"; "icons"] = Some Dir /\
  fs r.2 = <[ ["assets"; "icons"] := Dir ]> (fs Demo.no_icon).
Proof.
  intros r.
  destruct (icons_dir_created_first Demo.assets Demo.cairo Demo.no_icon) as [_ Hafter].
  destruct (Hafter (set_fs (insert ["assets"; "icons"] Dir)
                      (log (EvMkdir ["assets"; "icons"]) Demo.no_icon)))
    as (Hdir & Hfail); [vm_compute; reflexivity|].
  destruct Hfail as (Hret & _ & Hnew); [left; vm_compute; reflexivity|].
  split_and!; [vm_compute; reflexivity | exact Hret | exact Hdir |].
  apply Hnew. vm_compute. reflexivity.
Defined.

(** C5, as stated, fails: asked for 0x0, the rasteriser takes the size as
    not given and renders the template at its own size; the call returns and
    the file it wrote at the destination is 10x10, not 0x0. *)
Lemma zero_size_request_not_honoured :
  let d := ["assets"; "favicon.png"] in
  let r := convert_svg_to_png Scenario.file_cairo ["assets"; "PLACEHOLDER_ICON.svg"] d
             0 0 Demo.fresh in
  r.1 = Ok tt /\
  rasters (events_since Demo.fresh r.2) = [("assets/PLACEHOLDER_ICON.svg", 0, 0)] /\
  exists content,
    fs r.2 !! d = Some (File content) /\
    Png.size content = Some (10, 10) /\
    Png.size content <> Some (0, 0).
Proof.
  vm_compute. split_and!; try reflexivity.
  eexists. split_and!; try reflexivity. discriminate.
Qed.

(** The directory step and the opening of a destination when a regular file
    stands on the way to the parent: [NotADirectoryError], nothing created. *)
Example directory_step_behind_a_file :
  let r := ensure_icons_dir ["data"; "assets"] Scenario.behind_a_file in
  fs Scenario.behind_a_file !! ["data"; "assets"] = None /\
  r.1 = Raise (NotADirectoryError ["data"; "assets"; "icons"]) /\
  fs r.2 = fs Scenario.behind_a_file.
Proof. vm_compute. split_and!; reflexivity. Qed.

Example destination_behind_a_file :
  let r := convert_svg_to_png Demo.cairo ["logo.svg"] ["data"; "sub"; "out.png"] 48 48
             Scenario.behind_a_file in
  r.1 = Raise (NotADirectoryError ["data"; "sub"; "out.png"]) /\
  fs r.2 = fs Scenario.behind_a_file.
Proof. vm_compute. split_and!; reflexivity. Qed.

(** C2, as stated, fails: [icons] is a regular file and the icon template is
    missing. The directory step raises before the check: [main] does not
    return 1 and prints nothing. *)
Lemma missing_icon_may_raise :
  let w := Demo.icons_is_file (fs Demo.no_icon) in
  let r := main Demo.assets Demo.cairo w in
  fs w !! icon_svg Demo.assets = None /\
  r = (Raise (FileExistsError ["assets"; "icons"]), log (EvMkdir ["assets"; "icons"]) w) /\
  r.1 <> Ok 1 /\
  stdout (events_since w r.2) = [].
Proof. vm_compute. split_and!; try reflexivity. discriminate. Qed.

(** C3, as stated, fails: [icons] is a regular file and the splash template
    is missing. [main] raises in the directory step and returns nothing;
    no check has been made. *)
Lemma missing_splash_may_raise :
  let w := Demo.icons_is_file (fs Demo.no_splash) in
  let r := main Demo.assets Demo.cairo w in
  fs w !! splash_svg Demo.assets = None /\
  r = (Raise (FileExistsError ["assets"; "icons"]), log (EvMkdir ["assets"; "icons"]) w) /\
  r.1 <> Ok 1 /\
  events_since w r.2 = [EvMkdir ["assets"; "icons"]].
Proof. vm_compute. split_and!; try reflexivity. discriminate. Qed.

(** C4, as stated, fails: with the script directory missing, the directory
    step raises and creates neither the icons directory nor its parent,
    where [mkdir(parents=True, exist_ok=True)] would have created both. *)
Lemma ensure_icons_dir_creates_no_parent :
  let w := Demo.no_assets_dir in
  let r := ensure_icons_dir Demo.assets w in
  let r' := mkdir (icons_dir Demo.assets) true true w in
  fs w !! icons_dir Demo.assets = None /\
  r.1 = Raise (FileNotFoundError ["assets"; "icons"]) /\
  fs r.2 !! icons_dir Demo.assets = None /\
  fs r.2 !! Demo.assets = None /\
  r'.1 = Ok tt /\
  fs r'.2 !! icons_dir Demo.assets = Some Dir /\
  fs r'.2 !! Demo.assets = Some Dir.
Proof. vm_compute. split_and!; reflexivity. Qed.

(** C10, as stated, fails: both templates are there but [icons] is a regular
    file. The run raises in the directory step, and afterwards [icons] is
    still that file, not a directory. *)
Lemma icons_dir_may_not_exist_afterwards :
  let w := Demo.icons_is_file Demo.fresh_fs in
  let r := main Demo.assets Demo.cairo w in
  r.1 = Raise (FileExistsError ["assets"; "icons"]) /\
  fs r.2 !! icons_dir Demo.assets = Some (File [x00]) /\
  fs r.2 !! icons_dir Demo.assets <> Some Dir.
Proof. vm_compute. split_and!; try reflexivity. discriminate. Qed.

(** ** Further properties of the script *)

Section More.

Variable assets_dir : path.
Variable cairo : world -> string -> Z -> Z -> exn + bytes.

Ltac paths_differ :=
  unfold icons_dir, icon_svg, splash_svg;
  first
    [ apply truediv2_ne
    | apply not_eq_sym, truediv2_ne
    | apply truediv_ne_self
    | apply not_eq_sym, truediv_ne_self
    | let H := fresh in intros H; apply truediv_inj in H; discriminate H ].

(** *** One conversion: what happens when it fails *)

(** X1. When the rasteriser raises, [convert_svg_to_png] raises the same
    exception without having opened the destination: the file system is
    exactly as before (an older output at the destination survives), and the
    call has only printed its first line and asked the rasteriser. *)
Theorem rasteriser_failure_spares_destination
  (s d : path) (wd ht : Z) (w : world) (e : exn) :
  cairo (conv_started s d wd ht w) (Pathlib.str s) wd ht = inl e ->
  let r := convert_svg_to_png cairo s d wd ht w in
  r.1 = Raise e /\
  fs r.2 = fs w /\
  events_since w r.2 =
    [EvPrint (converting_line s d wd ht); EvRaster (Pathlib.str s) wd ht].
Proof.
  intros Hc r. subst r. rewrite convert_eq. cbv zeta. rewrite Hc. simpl.
  split_and!; try done.
  apply events_since_app. simpl. by rewrite <- app_assoc.
Qed.

(** X2. When the rasteriser has returned its bytes but the destination
    cannot be opened for writing, the call raises and drops the bytes: the
    file system is unchanged and the second progress line is not printed.
    The exception is [IsADirectoryError] when the destination is a
    directory and [NotADirectoryError] when its parent is a regular file;
    when its parent does not exist (no directory is created for it) it is
    [FileNotFoundError], unless a regular file stands on the way to the
    parent, which gives [NotADirectoryError] again. *)
Theorem unopenable_destination_raises
  (s d : path) (wd ht : Z) (w : world) (data : bytes) :
  cairo (conv_started s d wd ht w) (Pathlib.str s) wd ht = inr data ->
  let r := convert_svg_to_png cairo s d wd ht w in
  let quiet :=
    fs r.2 = fs w /\
    writes (events_since w r.2) = [] /\
    stdout (events_since w r.2) = [converting_line s d wd ht] in
  (fs w !! d = Some Dir -> r.1 = Raise (IsADirectoryError d) /\ quiet) /\
  (fs w !! d = None -> fs w !! Pathlib.parent d = None ->
   r.1 = Raise (if blocked_by_file (fs w) [] (Pathlib.parent d)
                then NotADirectoryError d
                else FileNotFoundError d) /\
   quiet) /\
  (forall c, fs w !! d = None -> fs w !! Pathlib.parent d = Some (File c) ->
   r.1 = Raise (NotADirectoryError d) /\ quiet).
Proof.
  intros Hc r quiet. subst r quiet. rewrite convert_eq. cbv zeta. rewrite Hc.
  assert (Hev : forall e0 : exn,
    events_since w (Raise (A := unit) e0, log (EvOpen d) (conv_started s d wd ht w)).2
      = [EvPrint (converting_line s d wd ht); EvRaster (Pathlib.str s) wd ht; EvOpen d]).
  { intros e0. apply events_since_app. simpl. by rewrite <- !app_assoc. }
  split_and!.
  - intros Hd. unfold writable, open_wb_error. rewrite Hd. by rewrite Hev.
  - intros Hd Hp. unfold writable, open_wb_error, missing_parent_error.
    rewrite Hd, Hp. by rewrite Hev.
  - intros c Hd Hp. unfold writable, open_wb_error. rewrite Hd, Hp. by rewrite Hev.
Qed.


(** *** Every run of [main], case by case *)

Lemma main_cases (w : world) :
  let r := main assets_dir cairo w in
  let icons := icons_dir assets_dir in
  let icon := icon_svg assets_dir in
  let splash := splash_svg assets_dir in
  (exists e,
     ensure_icons_dir assets_dir w = (Raise e, log (EvMkdir icons) w) /\
     r = (Raise e, log (EvMkdir icons) w) /\
     events_since w r.2 = [EvMkdir icons]) \/
  (exists w0,
     ensure_icons_dir assets_dir w = (Ok tt, w0) /\
     (fs w !! icon = None \/ fs w !! splash = None) /\
     r.1 = Ok 1 /\ fs r.2 = fs w0 /\
     rasters (events_since w r.2) = [] /\ writes (events_since w r.2) = [] /\
     exists p, stdout (events_since w r.2) = [not_found_line p]) \/
  (exists w0 res w5 tb,
     ensure_icons_dir assets_dir w = (Ok tt, w0) /\
     is_Some (fs w !! icon) /\ is_Some (fs w !! splash) /\
     run_batch cairo (batch assets_dir) (checked assets_dir w0) = (res, w5) /\
     trace w5 = trace (checked assets_dir w0) ++ tb /\
     r = match res with
         | Ok _ => (Ok 0, finished w5)
         | Raise e => (Raise e, w5)
         end /\
     events_since w r.2 =
       EvMkdir icons :: EvStat icon true :: EvStat splash true
         :: tb ++ match res with
                  | Ok _ => map EvPrint summary_lines
                  | Raise _ => []
                  end).
Proof.
  intros r icons icon splash. subst r icons icon splash.
  destruct (ensure_icons_dir assets_dir w) as [[[]|e] w0] eqn:He.
  - right.
    destruct (main_events_after_ensure assets_dir cairo w w0 He)
      as [(Hi & Hr & Ht) | [(Hi & Hs & Hr & Ht) | (Hi & Hs & _)]].
    + left. exists w0. rewrite Ht, Hr. simpl.
      split_and!; [done | by left | done | done | done | done | eauto].
    + left. exists w0. rewrite Ht, Hr. simpl.
      split_and!; [done | by right | done | done | done | done | eauto].
    + right. rewrite main_eq, He.
      pose proof (ensure_ok_inv _ _ _ _ He) as (Ht0 & _ & Hframe & _).
      rewrite !bool_decide_true by (rewrite Hframe; [done | paths_differ]).
      destruct (run_batch cairo (batch assets_dir) (checked assets_dir w0))
        as [res w5] eqn:Hb.
      destruct (run_batch_extends _ _ _ _ _ Hb) as (tb & Htb & _).
      exists w0, res, w5, tb. split_and!; try done.
      destruct res as [u|e]; simpl; apply events_since_app; simpl;
        rewrite Htb; simpl; rewrite Ht0; rewrite ?app_nil_r; by rewrite <- !app_assoc.
  - left. destruct (main_after_failed_ensure assets_dir cairo w w0 e He) as [Hr Ht].
    pose proof (ensure_raise_inv _ _ _ _ He) as [-> _].
    exists e. by split_and!.
Qed.

(** *** What a status means *)

(** X4. [main] returns only 0 or 1.  It returns 1 only when one of the
    templates is missing, and then it has asked for no rasterisation and
    written nothing; it returns 0 only when both templates exist. *)
Theorem main_status_meaning (w w' : world) (status : Z) :
  main assets_dir cairo w = (Ok status, w') ->
  let t := events_since w w' in
  (status = 1 /\
   (fs w !! icon_svg assets_dir = None \/ fs w !! splash_svg assets_dir = None) /\
   rasters t = [] /\ writes t = []) \/
  (status = 0 /\
   is_Some (fs w !! icon_svg assets_dir) /\
   is_Some (fs w !! splash_svg assets_dir)).
Proof.
  intros H t. subst t.
  destruct (main_cases w)
    as [(e & _ & Hr & _) | [(w0 & _ & Hmiss & Hs & _ & Hras & Hwr & _)
       | (w0 & res & w5 & tb & _ & Hi & Hs & _ & _ & Hr & _)]];
    rewrite H in *; simpl in *.
  - discriminate.
  - left. injection Hs as ->. by split_and!.
  - right. destruct res; [|discriminate]. injection Hr as -> _. by split_and!.
Qed.

(** X6. The process ends with status 0 or 1, and with status 0 exactly when
    the directory step returned, both templates exist and the four
    conversions returned one after the other. *)
Theorem exit_status_zero_iff (w : world) :
  ((exit_main assets_dir cairo w).1 = 0 \/ (exit_main assets_dir cairo w).1 = 1) /\
  ((exit_main assets_dir cairo w).1 = 0 <->
   exists w0 w5,
     ensure_icons_dir assets_dir w = (Ok tt, w0) /\
     is_Some (fs w !! icon_svg assets_dir) /\
     is_Some (fs w !! splash_svg assets_dir) /\
     run_batch cairo (batch assets_dir) (checked assets_dir w0) = (Ok tt, w5)).
Proof.
  unfold exit_main.
  destruct (main_cases w)
    as [(e & He & Hr & _) | [(w0 & He & Hmiss & Hs & _)
       | (w0 & res & w5 & tb & He & Hi & Hs & Hb & _ & Hr & _)]].
  - rewrite Hr. simpl. split; [by right|]. split; [done|].
    intros (w0 & w5 & He' & _). rewrite He in He'. discriminate.
  - destruct (main assets_dir cairo w) as [[s|e] w1]; simpl in Hs; [|discriminate].
    injection Hs as ->. simpl. split; [by right|]. split; [done|].
    intros (w0' & w5 & _ & Hi & Hsp & _).
    destruct Hmiss as [Hn|Hn]; [rewrite Hn in Hi; by destruct Hi
                               | rewrite Hn in Hsp; by destruct Hsp].
  - rewrite Hr. destruct res as [[]|e]; cbn [fst snd].
    + split; [by left|]. split; [|done]. intros _. by exists w0, w5.
    + split; [by right|]. split; [done|].
      intros (w0' & w5' & He' & _ & _ & Hb').
      congruence.
Qed.

(** X9. When the directory step cannot succeed, [main] raises in that step
    and has done nothing else: no check, no line printed, the file system
    untouched.  [icons] being a regular file gives [FileExistsError]; with
    [icons] absent, the script directory being a regular file gives
    [NotADirectoryError]; and the script directory being absent gives
    [FileNotFoundError], unless a regular file stands on the way to it,
    which gives [NotADirectoryError]. *)
Theorem main_directory_step_failure (w : world) :
  let icons := icons_dir assets_dir in
  let stopped := log (EvMkdir icons) w in
  (forall c, fs w !! icons = Some (File c) ->
   main assets_dir cairo w = (Raise (FileExistsError icons), stopped)) /\
  (forall c, fs w !! icons = None -> fs w !! assets_dir = Some (File c) ->
   main assets_dir cairo w = (Raise (NotADirectoryError icons), stopped)) /\
  (fs w !! icons = None -> fs w !! assets_dir = None ->
   main assets_dir cairo w =
     (Raise (if blocked_by_file (fs w) [] assets_dir
             then NotADirectoryError icons
             else FileNotFoundError icons), stopped)).
Proof.
  intros icons stopped. subst icons stopped. split_and!.
  - intros c Hi. rewrite main_eq, ensure_icons_dir_eq. cbv zeta. by rewrite Hi.
  - intros c Hi Ha. rewrite main_eq, ensure_icons_dir_eq. cbv zeta. by rewrite Hi, Ha.
  - intros Hi Ha. rewrite main_eq, ensure_icons_dir_eq. cbv zeta. by rewrite Hi, Ha.
Qed.

(** *** What [main] never does *)

Lemma fs_kept_refl (m : gmap path node) : fs_kept m m.
Proof. by intros p. Qed.

Lemma fs_kept_trans (m1 m2 m3 : gmap path node) :
  fs_kept m1 m2 -> fs_kept m2 m3 -> fs_kept m1 m3.
Proof.
  intros H12 H23 p. destruct (H12 p) as [Ha Hb], (H23 p) as [Hc Hd]. split; auto.
Qed.

Lemma convert_fs_kept (s d : path) (wd ht : Z) (w w' : world) (r : result unit) :
  convert_svg_to_png cairo s d wd ht w = (r, w') -> fs_kept (fs w) (fs w').
Proof.
  intros H. destruct r as [u|e].
  - apply convert_ok_inv in H as (data & _ & Hw & ->). simpl. intros p.
    destruct (decide (p = d)) as [->|Hne].
    + rewrite lookup_insert_eq. split; [eauto|].
      intros Hd. unfold writable in Hw. by rewrite Hd in Hw.
    + by rewrite lookup_insert_ne.
  - apply convert_raise_inv in H as [-> _]. apply fs_kept_refl.
Qed.

Lemma run_batch_fs_kept (js : list job) (w w' : world) (r : result unit) :
  run_batch cairo js w = (r, w') -> fs_kept (fs w) (fs w').
Proof.
  revert w. induction js as [|j rest IH]; intros w H.
  - injection H as _ <-. apply fs_kept_refl.
  - simpl in H. unfold bind in H.
    destruct (convert_job cairo j w) as [[u|e] w1] eqn:Hj;
      apply convert_fs_kept in Hj.
    + eapply fs_kept_trans; [exact Hj | by eapply IH].
    + by injection H as _ <-.
Qed.

Lemma ensure_fs_kept (w w0 : world) (r : result unit) :
  ensure_icons_dir assets_dir w = (r, w0) -> fs_kept (fs w) (fs w0).
Proof.
  intros H. destruct r as [u|e].
  - apply ensure_ok_inv in H as (_ & _ & _ & [[_ ->] | (Hi & _ & ->)]).
    + apply fs_kept_refl.
    + intros p. destruct (decide (p = icons_dir assets_dir)) as [->|Hne].
      * rewrite lookup_insert_eq, Hi. split; [eauto | done].
      * by rewrite lookup_insert_ne.
  - apply ensure_raise_inv in H as [-> _]. apply fs_kept_refl.
Qed.

(** X7. No run of [main] removes anything or replaces a directory: every
    path that existed before exists afterwards, every directory is still a
    directory, and the two templates are exactly as they were. *)
Theorem main_keeps_files (w : world) :
  let w' := (main assets_dir cairo w).2 in
  (forall p, is_Some (fs w !! p) -> is_Some (fs w' !! p)) /\
  (forall p, fs w !! p = Some Dir -> fs w' !! p = Some Dir) /\
  fs w' !! icon_svg assets_dir = fs w !! icon_svg assets_dir /\
  fs w' !! splash_svg assets_dir = fs w !! splash_svg assets_dir.
Proof.
  intros w'. subst w'.
  assert (Hkept : fs_kept (fs w) (fs (main assets_dir cairo w).2)).
  { destruct (main_cases w)
      as [(e & _ & Hr & _) | [(w0 & He & _ & _ & Hfs & _)
         | (w0 & res & w5 & tb & He & _ & _ & Hb & _ & Hr & _)]].
    - rewrite Hr. apply fs_kept_refl.
    - rewrite Hfs. by eapply ensure_fs_kept.
    - eapply fs_kept_trans; [by eapply ensure_fs_kept|].
      rewrite Hr. apply run_batch_fs_kept in Hb. by destruct res. }
  split_and!.
  - intros p. apply Hkept.
  - intros p. apply Hkept.
  - apply main_frame; [paths_differ | apply icon_svg_not_dst].
  - apply main_frame; [paths_differ | apply splash_svg_not_dst].
Qed.

(** *** The order of the requests *)

Lemma run_batch_prefix (js : list job) (w w' : world) (r : result unit) :
  run_batch cairo js w = (r, w') ->
  exists t,
    trace w' = trace w ++ t /\
    rasters t `prefix_of` map request js /\
    map fst (writes t) `prefix_of` map dst js /\
    (length (writes t) <= length (rasters t) <= length (writes t) + 1)%nat.
Proof.
  revert w. induction js as [|j rest IH]; intros w H.
  - injection H as _ <-. exists []. rewrite app_nil_r. simpl. split_and!; try done; lia.
  - simpl in H. unfold bind in H.
    destruct (convert_job cairo j w) as [[u|e] w1] eqn:Hj.
    + apply IH in H as (t & Ht & Hr & Hw & Hlen).
      apply convert_ok_inv in Hj as (data & _ & _ & ->).
      exists (conv_events (src j) (dst j) (width j) (height j) data ++ t).
      split_and!.
      * rewrite Ht. simpl. by rewrite <- app_assoc.
      * rewrite rasters_app. simpl. by apply prefix_cons.
      * rewrite writes_app, map_app. simpl. by apply prefix_cons.
      * rewrite writes_app, rasters_app. simpl. lia.
      * rewrite writes_app, rasters_app. simpl. lia.
    + injection H as _ <-.
      apply convert_raise_inv in Hj as (_ & tail & Ht & Htail).
      eexists. split; [exact Ht|].
      destruct Htail as [-> | ->]; simpl; split_and!;
        try (apply prefix_cons, prefix_nil); try apply prefix_nil; lia.
Qed.

(** X8. In every run the rasteriser is asked for an initial part of the four
    jobs, in their order, and the files written are an initial part of the
    four outputs, in their order; at any end of a run at most one request
    has not been followed by its write. *)
Theorem main_requests_in_order (w : world) :
  let t := events_since w (main assets_dir cairo w).2 in
  rasters t `prefix_of`
    [ (Pathlib.str (icon_svg assets_dir), 1024, 1024);
      (Pathlib.str (icon_svg assets_dir), 1024, 1024);
      (Pathlib.str (icon_svg assets_dir), 48, 48);
      (Pathlib.str (splash_svg assets_dir), 1284, 2778) ] /\
  map fst (writes t) `prefix_of`
    [ icons_dir assets_dir </> "icon.png";
      icons_dir assets_dir </> "adaptive-icon.png";
      icons_dir assets_dir </> "favicon.png";
      assets_dir </> "splash.png" ] /\
  (length (writes t) <= length (rasters t) <= length (writes t) + 1)%nat.
Proof.
  intros t. subst t.
  destruct (main_cases w)
    as [(e & _ & _ & Ht) | [(w0 & _ & _ & _ & _ & Hras & Hwr & _)
       | (w0 & res & w5 & tb & _ & _ & _ & Hb & Htb & _ & Ht)]].
  - rewrite Ht. simpl. split_and!; try apply prefix_nil; lia.
  - rewrite Hras, Hwr. simpl. split_and!; try apply prefix_nil; lia.
  - rewrite Ht. apply run_batch_prefix in Hb as (t & Ht' & Hr & Hw & Hlen).
    rewrite Ht' in Htb. apply app_inv_head in Htb as <-.
    assert (Hras : rasters (EvMkdir (icons_dir assets_dir)
                     :: EvStat (icon_svg assets_dir) true
                     :: EvStat (splash_svg assets_dir) true
                     :: t ++ match res with
                             | Ok _ => map EvPrint summary_lines
                             | Raise _ => []
                             end) = rasters t).
    { simpl. rewrite rasters_app. destruct res; simpl; by rewrite app_nil_r. }
    assert (Hwr : writes (EvMkdir (icons_dir assets_dir)
                     :: EvStat (icon_svg assets_dir) true
                     :: EvStat (splash_svg assets_dir) true
                     :: t ++ match res with
                             | Ok _ => map EvPrint summary_lines
                             | Raise _ => []
                             end) = writes t).
    { simpl. rewrite writes_app. destruct res; simpl; by rewrite app_nil_r. }
    rewrite Hras, Hwr. split_and!; [exact Hr | exact Hw | lia | lia].
Qed.

(** *** What a successful run leaves on disk *)

Lemma run_batch_ok_data (js : list job) (w w' : world) (u : unit) :
  NoDup (map dst js) ->
  (forall j, In j js -> ~ In (src j) (map dst js)) ->
  run_batch cairo js w = (Ok u, w') ->
  forall j, In j js ->
    exists data wc,
      fs wc !! src j = fs w !! src j /\
      cairo wc (Pathlib.str (src j)) (width j) (height j) = inr data /\
      fs w' !! dst j = Some (File data).
Proof.
  revert w. induction js as [|j0 rest IH]; intros w Hnd Hsrc H j Hj; [done|].
  simpl in H. apply bind_ok_inv in H as (u1 & w1 & Hj0 & H).
  apply NoDup_cons in Hnd as [Hfresh Hnd]. rewrite list_elem_of_In in Hfresh.
  apply convert_ok_inv in Hj0 as (data & Hc & _ & ->).
  destruct Hj as [<- | Hj].
  - exists data, (conv_started (src j0) (dst j0) (width j0) (height j0) w).
    split_and!; [done | exact Hc |].
    rewrite (run_batch_frame _ _ _ _ _ H) by done. simpl. apply lookup_insert_eq.
  - assert (Hsrc' : forall j', In j' rest -> ~ In (src j') (map dst rest)).
    { intros j' Hj' Hin. apply (Hsrc j'); [by right | by right]. }
    destruct (IH _ Hnd Hsrc' H j Hj) as (dj & wc & Hwc & Hcj & Hfs).
    exists dj, wc. split_and!; [|done|done].
    rewrite Hwc. simpl. apply lookup_insert_ne.
    intros Heq. apply (Hsrc j); [by right | left; done].
Qed.

(** Each output of a run that returned 0 holds what the rasteriser returned
    for its job, in a world where the template was as at the start. *)
Lemma main_ok_outputs (w w' : world) :
  main assets_dir cairo w = (Ok 0, w') ->
  fs w' !! icons_dir assets_dir = Some Dir /\
  forall j, In j (batch assets_dir) ->
    exists data wc,
      fs wc !! src j = fs w !! src j /\
      cairo wc (Pathlib.str (src j)) (width j) (height j) = inr data /\
      fs w' !! dst j = Some (File data).
Proof.
  intros H.
  destruct (main_cases w)
    as [(e & _ & Hr & _) | [(w0 & _ & _ & Hs & _)
       | (w0 & res & w5 & tb & He & _ & _ & Hb & _ & Hr & _)]];
    rewrite H in *.
  - discriminate.
  - discriminate.
  - destruct res as [[]|e]; [|discriminate]. injection Hr as ->.
    apply ensure_ok_inv in He as (_ & Hdir & Hframe & _).
    split.
    + simpl. by rewrite (run_batch_frame _ _ _ _ _ Hb _ (icons_dir_not_dst assets_dir)).
    + intros j Hj.
      destruct (run_batch_ok_data _ _ _ _ (batch_dst_NoDup assets_dir)
                  (batch_src_not_dst assets_dir) Hb j Hj)
        as (data & wc & Hwc & Hc & Hfs).
      exists data, wc. split_and!; [|done|done].
      rewrite Hwc. simpl. apply Hframe.
      unfold batch in Hj. simpl in Hj.
      destruct Hj as [<-|[<-|[<-|[<-|[]]]]]; simpl; paths_differ.
Qed.


(** X10. With a rasteriser whose answer for each of the two templates
    depends only on what that template holds, the four outputs of a run that
    returns 0 depend only on the two templates: two such runs that start
    with the same templates end with the same bytes in each output, whatever
    else their file systems hold. *)
Theorem outputs_depend_only_on_templates (w w' v v' : world) :
  (forall wa wb a b,
     fs wa !! icon_svg assets_dir = fs wb !! icon_svg assets_dir ->
     cairo wa (Pathlib.str (icon_svg assets_dir)) a b
       = cairo wb (Pathlib.str (icon_svg assets_dir)) a b) ->
  (forall wa wb a b,
     fs wa !! splash_svg assets_dir = fs wb !! splash_svg assets_dir ->
     cairo wa (Pathlib.str (splash_svg assets_dir)) a b
       = cairo wb (Pathlib.str (splash_svg assets_dir)) a b) ->
  main assets_dir cairo w = (Ok 0, w') ->
  main assets_dir cairo v = (Ok 0, v') ->
  fs w !! icon_svg assets_dir = fs v !! icon_svg assets_dir ->
  fs w !! splash_svg assets_dir = fs v !! splash_svg assets_dir ->
  forall out,
    In out [ icons_dir assets_dir </> "icon.png";
             icons_dir assets_dir </> "adaptive-icon.png";
             icons_dir assets_dir </> "favicon.png";
             assets_dir </> "splash.png" ] ->
    fs w' !! out = fs v' !! out.
Proof.
  intros Hdi Hds Hw Hv Hicon Hsplash out Hin.
  pose proof (batch_reads_templates assets_dir cairo Hdi Hds) as Hdet.
  apply main_ok_outputs in Hw as [_ Hw]. apply main_ok_outputs in Hv as [_ Hv].
  assert (Hj : exists j, In j (batch assets_dir) /\ dst j = out /\
                         fs w !! src j = fs v !! src j).
  { unfold batch. simpl in *.
    destruct Hin as [<-|[<-|[<-|[<-|[]]]]]; eexists; split_and!;
      [left; reflexivity | done | done
      | right; left; reflexivity | done | done
      | right; right; left; reflexivity | done | done
      | right; right; right; left; reflexivity | done | done]. }
  destruct Hj as (j & Hj & <- & Hsrc).
  destruct (Hw j Hj) as (dw & wcw & Hwcw & Hcw & ->).
  destruct (Hv j Hj) as (dv & wcv & Hwcv & Hcv & ->).
  rewrite (Hdet j Hj wcw wcv) in Hcw by congruence.
  congruence.
Qed.

(** X11. With a rasteriser whose answer for the icon template depends only
    on what that template holds, a run that returns 0 leaves
    icons/adaptive-icon.png with exactly the bytes of icons/icon.png: both
    come from the same request. *)
Theorem icon_and_adaptive_icon_identical (w w' : world) :
  (forall wa wb a b,
     fs wa !! icon_svg assets_dir = fs wb !! icon_svg assets_dir ->
     cairo wa (Pathlib.str (icon_svg assets_dir)) a b
       = cairo wb (Pathlib.str (icon_svg assets_dir)) a b) ->
  main assets_dir cairo w = (Ok 0, w') ->
  fs w' !! (icons_dir assets_dir </> "icon.png")
    = fs w' !! (icons_dir assets_dir </> "adaptive-icon.png").
Proof.
  intros Hdet H. apply main_ok_outputs in H as [_ Hout].
  destruct (Hout (Job (icon_svg assets_dir) (icons_dir assets_dir </> "icon.png")
                    1024 1024)) as (d1 & wc1 & Hw1 & Hc1 & Hf1);
    [unfold batch; simpl; tauto|].
  destruct (Hout (Job (icon_svg assets_dir) (icons_dir assets_dir </> "adaptive-icon.png")
                    1024 1024)) as (d2 & wc2 & Hw2 & Hc2 & Hf2);
    [unfold batch; simpl; tauto|].
  simpl in *. rewrite Hf1, Hf2.
  rewrite (Hdet wc1 wc2) in Hc1 by congruence.
  congruence.
Qed.

(** *** The console *)

Lemma run_batch_ok_stdout (js : list job) (w w' : world) (u : unit) :
  run_batch cairo js w = (Ok u, w') ->
  exists t, trace w' = trace w ++ t /\ stdout t = flat_map job_lines js.
Proof.
  revert w. induction js as [|j rest IH]; intros w H.
  - injection H as _ <-. exists []. by rewrite app_nil_r.
  - simpl in H. apply bind_ok_inv in H as (u1 & w1 & Hj & H).
    apply IH in H as (t & Ht & Hout).
    apply convert_ok_inv in Hj as (data & _ & _ & ->).
    exists (conv_events (src j) (dst j) (width j) (height j) data ++ t). split.
    + rewrite Ht. simpl. by rewrite <- app_assoc.
    + rewrite stdout_app, Hout. reflexivity.
Qed.

(** X12. The console of a run that returns 0 is exactly fourteen lines: for
    each of the four jobs, in order, the line announcing the conversion with
    both paths and the size, then the line [✓ ... created] with the bare
    file name of the output; then the six lines of the summary. *)
Theorem main_success_transcript (w w' : world) :
  main assets_dir cairo w = (Ok 0, w') ->
  stdout (events_since w w') =
    [ converting_line (icon_svg assets_dir) (icons_dir assets_dir </> "icon.png")
        1024 1024;
      "✓ icon.png created";
      converting_line (icon_svg assets_dir) (icons_dir assets_dir </> "adaptive-icon.png")
        1024 1024;
      "✓ adaptive-icon.png created";
      converting_line (icon_svg assets_dir) (icons_dir assets_dir </> "favicon.png")
        48 48;
      "✓ favicon.png created";
      converting_line (splash_svg assets_dir) (assets_dir </> "splash.png") 1284 2778;
      "✓ splash.png created" ]
    ++ summary_lines.
Proof.
  intros H.
  destruct (main_cases w)
    as [(e & _ & Hr & _) | [(w0 & _ & _ & Hs & _)
       | (w0 & res & w5 & tb & _ & _ & _ & Hb & Htb & Hr & Ht)]];
    rewrite H in *; try discriminate.
  destruct res as [[]|e]; [|discriminate].
  cbn [snd] in Ht. rewrite Ht.
  apply run_batch_ok_stdout in Hb as (t & Ht' & Hout).
  rewrite Ht' in Htb. apply app_inv_head in Htb as <-.
  cbn [stdout flat_map app]. fold (stdout (t ++ map EvPrint summary_lines)).
  rewrite stdout_app, Hout.
  unfold batch, job_lines, created_line. cbn [flat_map src dst width height app].
  rewrite !name_truediv. reflexivity.
Qed.

End More.

(** ** The start of the script and its entry point *)

Section Startup.

Variable shell : string -> gset string -> gmap path node -> gset string * gmap path node.
Variable assets_dir : path.
Variable cairo : world -> string -> Z -> Z -> exn + bytes.

Lemma first_missing_None (mods : gset string) :
  first_missing mods = None <->
  "cairosvg" ∈ mods /\ "PIL" ∈ mods /\ "io" ∈ mods.
Proof.
  unfold first_missing. repeat case_bool_decide; split; try done; tauto.
Qed.

Lemma first_missing_Some (mods : gset string) (name : string) :
  first_missing mods = Some name -> name ∉ mods.
Proof.
  unfold first_missing. repeat case_bool_decide; intros [= <-]; done.
Qed.

(** How the import of the first module that is not importable fails. *)
Lemma imports_eq (p : process) :
  imports p =
    (match first_missing (modules p) with
     | None => Imported tt
     | Some name =>
         if faulty p (modules p) (fs (os p)) name
         then ImportCrashed name
         else ImportError name
     end, p).
Proof.
  unfold imports, import_module, first_missing.
  repeat case_bool_decide; try done;
    by destruct (faulty p (modules p) (fs (os p)) _).
Qed.

Lemma prelude_eq (p : process) :
  prelude shell p =
    match first_missing (modules p) with
    | None => (Imported tt, p)
    | Some name =>
        if faulty p (modules p) (fs (os p)) name then (ImportCrashed name, p)
        else imports (os_system shell install_command (console_print install_line p))
    end.
Proof.
  unfold prelude. rewrite imports_eq.
  destruct (first_missing (modules p)) as [name|]; [|done].
  by destruct (faulty p (modules p) (fs (os p)) name).
Qed.

(** X13. When the three modules can be imported, the script run as a program
    is [exit(main())] and nothing else: it prints no installation line and
    hands nothing to the shell. *)
Theorem script_with_modules (p : process) :
  "cairosvg" ∈ modules p -> "PIL" ∈ modules p -> "io" ∈ modules p ->
  let r := script shell assets_dir cairo "__main__" p in
  r.1 = Exit (exit_main assets_dir cairo (os p)).1 /\
  os r.2 = (exit_main assets_dir cairo (os p)).2 /\
  commands r.2 = commands p /\
  modules r.2 = modules p.
Proof.
  intros H1 H2 H3 r. subst r. unfold script. rewrite prelude_eq.
  assert (Hnone : first_missing (modules p) = None) by (by apply first_missing_None).
  rewrite Hnone. by rewrite bool_decide_true.
Qed.

(** X14. Let [name] be the first of cairosvg, PIL and io whose import does
    not succeed.  When that import raises [ImportError], the fallback prints
    its one line, hands exactly one command to the shell,
    [pip install cairosvg pillow], and imports again in what the shell left:
    the second import succeeds exactly when the three modules can be
    imported then, and otherwise ends with the exception of the first one
    that cannot, which nothing handles.  When that import raises anything
    else, the handler does not apply: the script ends there, with nothing
    printed and nothing handed to the shell. *)
Theorem prelude_installs_once (p : process) (name : string) :
  first_missing (modules p) = Some name ->
  let r := prelude shell p in
  let after := shell "pip install cairosvg pillow" (modules p) (fs (os p)) in
  (faulty p (modules p) (fs (os p)) name = false ->
   commands r.2 = commands p ++ ["pip install cairosvg pillow"] /\
   trace (os r.2) = trace (os p) ++ [EvPrint "Installing required packages..."] /\
   modules r.2 = after.1 /\
   fs (os r.2) = after.2 /\
   (r.1 = Imported tt <-> "cairosvg" ∈ after.1 /\ "PIL" ∈ after.1 /\ "io" ∈ after.1) /\
   (forall again, first_missing after.1 = Some again ->
      r.1 = if faulty p after.1 after.2 again
            then ImportCrashed again
            else ImportError again)) /\
  (faulty p (modules p) (fs (os p)) name = true ->
   r = (ImportCrashed name, p)).
Proof.
  intros Hfm r after. subst r after. rewrite prelude_eq, Hfm. split.
  - intros ->. rewrite imports_eq.
    set (p1 := os_system shell install_command (console_print install_line p)).
    destruct (first_missing (modules p1)) as [again|] eqn:Hagain; cbn [fst snd].
    + split_and!; try done.
      * split; [by destruct (faulty p1 (modules p1) (fs (os p1)) again)|].
        intros Hall. apply first_missing_None in Hall.
        change (first_missing (modules p1) = None) in Hall. congruence.
      * intros again' Hagain'.
        change (first_missing (modules p1) = Some again') in Hagain'.
        assert (again' = again) as -> by congruence. reflexivity.
    + split_and!; try done.
      * split; [|done]. intros _. by apply first_missing_None in Hagain.
      * intros again' Hagain'.
        change (first_missing (modules p1) = Some again') in Hagain'. congruence.
  - by intros ->.
Qed.

(** X15. However the script ends, it has handed the shell nothing, or the
    one installation command once.  It reaches [exit(main())] only with the
    three modules importable at that moment; and when it ends with an import
    error, the module named cannot be imported, the installation has been
    tried, and the script has printed the installation line and done nothing
    else: [main] has not started. *)
Theorem script_runs_main_only_with_modules (dunder_name : string) (p : process) :
  let r := script shell assets_dir cairo dunder_name p in
  (commands r.2 = commands p \/ commands r.2 = commands p ++ [install_command]) /\
  (forall status, r.1 = Exit status ->
     dunder_name = "__main__" /\
     "cairosvg" ∈ modules r.2 /\ "PIL" ∈ modules r.2 /\ "io" ∈ modules r.2) /\
  (forall name, r.1 = ImportFailed name ->
     (name ∉ modules r.2) /\
     commands r.2 = commands p ++ [install_command] /\
     trace (os r.2) = trace (os p) ++ [EvPrint install_line]).
Proof.
  intros r. subst r. unfold script. rewrite prelude_eq.
  destruct (first_missing (modules p)) as [n0|] eqn:Hfm.
  - destruct (faulty p (modules p) (fs (os p)) n0).
    { split_and!; [by left | done | done]. }
    rewrite imports_eq.
    destruct (first_missing (modules (os_system shell install_command
                (console_print install_line p)))) as [n1|] eqn:Hfm1.
    + destruct (faulty _ _ _ n1).
      { split_and!; [by right | done | done]. }
      split_and!; [by right | done |].
      intros name [= <-]. split_and!; [by apply first_missing_Some | done | done].
    + case_bool_decide; (split_and!; [by right | | done]).
      * intros status _. split; [done|]. by apply first_missing_None.
      * done.
  - case_bool_decide; (split_and!; [by left | | done]).
    + intros status _. split; [done|]. by apply first_missing_None.
    + done.
Qed.

(** X16. Imported as a module (with [__name__] other than ["__main__"]), the
    file never runs [main]: it ends with its definitions in place or with an
    import error, and the only thing it can have printed or done to the
    world of [main] itself is the installation line. *)
Theorem imported_module_does_not_run_main (dunder_name : string) (p : process) :
  dunder_name <> "__main__" ->
  let r := script shell assets_dir cairo dunder_name p in
  (forall status, r.1 <> Exit status) /\
  (trace (os r.2) = trace (os p) \/
   trace (os r.2) = trace (os p) ++ [EvPrint install_line]).
Proof.
  intros Hname r. subst r. unfold script. rewrite prelude_eq.
  rewrite bool_decide_false by done.
  destruct (first_missing (modules p)) as [n0|].
  - destruct (faulty p (modules p) (fs (os p)) n0); [split; [done | by left]|].
    rewrite imports_eq.
    destruct (first_missing _) as [n1|]; [destruct (faulty _ _ _ n1)|];
      (split; [done | by right]).
  - split; [done | by left].
Qed.

End Startup.

(** ** The further properties at work *)

Lemma rasteriser_failure_spares_destination_witness :
  let d := ["assets"; "icons"; "icon.png"] in
  let r := convert_svg_to_png Scenario.broken_cairo ["assets"; "PLACEHOLDER_ICON.svg"] d
             1024 1024 Scenario.with_old_icon in
  r.1 = Raise (LibraryError "no element found") /\
  fs r.2 !! d = Some (File [xaa; xbb]).
Proof.
  intros d r.
  destruct (rasteriser_failure_spares_destination Scenario.broken_cairo
              ["assets"; "PLACEHOLDER_ICON.svg"] d 1024 1024 Scenario.with_old_icon
              (LibraryError "no element found"))
    as (Hr & Hfs & _).
  - reflexivity.
  - split; [exact Hr|]. subst r. rewrite Hfs. vm_compute. reflexivity.
Defined.

Lemma unopenable_destination_raises_witness :
  let d := ["assets"; "icons"; "icon.png"] in
  let r := convert_svg_to_png Demo.cairo ["assets"; "PLACEHOLDER_ICON.svg"] d
             1024 1024 Demo.fresh in
  r.1 = Raise (FileNotFoundError d) /\
  fs r.2 = fs Demo.fresh /\
  fs r.2 !! ["assets"; "icons"] = None.
Proof.
  intros d r.
  destruct (unopenable_destination_raises Demo.cairo
              ["assets"; "PLACEHOLDER_ICON.svg"] d 1024 1024 Demo.fresh [x02])
    as (_ & Hmissing & _).
  - vm_compute. reflexivity.
  - destruct Hmissing as (Hr & Hfs & _).
    + vm_compute. reflexivity.
    + vm_compute. reflexivity.
    + split_and!; [exact Hr | exact Hfs |]. subst r. rewrite Hfs. vm_compute. reflexivity.
Defined.


Lemma main_status_meaning_witness :
  fs Demo.no_splash !! splash_svg Demo.assets = None /\
  rasters (events_since Demo.no_splash
             (main Demo.assets Demo.cairo Demo.no_splash).2) = [].
Proof.
  destruct (main_status_meaning Demo.assets Demo.cairo Demo.no_splash
              (main Demo.assets Demo.cairo Demo.no_splash).2 1)
    as [(_ & _ & Hr & _) | (H01 & _)].
  - vm_compute. reflexivity.
  - split; [vm_compute; reflexivity | exact Hr].
  - discriminate H01.
Defined.


Lemma outputs_depend_only_on_templates_witness :
  fs Scenario.stale !! ["assets"; "splash.png"] = Some (File [xff]) /\
  fs Scenario.after_file_run !! (Demo.assets </> "splash.png")
    = fs (main Demo.assets Scenario.file_cairo Scenario.stale).2
        !! (Demo.assets </> "splash.png").
Proof.
  split; [vm_compute; reflexivity|].
  apply (outputs_depend_only_on_templates Demo.assets Scenario.file_cairo
           Demo.fresh Scenario.after_file_run Scenario.stale
           (main Demo.assets Scenario.file_cairo Scenario.stale).2).
  - intros wa wb a b. apply file_cairo_reads_template. vm_compute. reflexivity.
  - intros wa wb a b. apply file_cairo_reads_template. vm_compute. reflexivity.
  - vm_compute. reflexivity.
  - vm_compute. reflexivity.
  - vm_compute. reflexivity.
  - vm_compute. reflexivity.
  - right. right. right. left. reflexivity.
Defined.

Lemma icon_and_adaptive_icon_identical_witness :
  fs Scenario.after_file_run !! (icons_dir Demo.assets </> "icon.png")
    = fs Scenario.after_file_run !! (icons_dir Demo.assets </> "adaptive-icon.png").
Proof.
  apply (icon_and_adaptive_icon_identical Demo.assets Scenario.file_cairo Demo.fresh).
  - intros wa wb a b. apply file_cairo_reads_template. vm_compute. reflexivity.
  - vm_compute. reflexivity.
Defined.

Lemma main_success_transcript_witness :
  stdout (events_since Demo.fresh Demo.after_first_run) =
    [ "Converting assets/PLACEHOLDER_ICON.svg to assets/icons/icon.png (1024x1024)...";
      "✓ icon.png created";
      "Converting assets/PLACEHOLDER_ICON.svg to assets/icons/adaptive-icon.png (1024x1024)...";
      "✓ adaptive-icon.png created";
      "Converting assets/PLACEHOLDER_ICON.svg to assets/icons/favicon.png (48x48)...";
      "✓ favicon.png created";
      "Converting assets/PLACEHOLDER_SPLASH.svg to assets/splash.png (1284x2778)...";
      "✓ splash.png created" ] ++ summary_lines.
Proof.
  assert (H : main Demo.assets Demo.cairo Demo.fresh = (Ok 0, Demo.after_first_run))
    by (vm_compute; reflexivity).
  apply (main_success_transcript Demo.assets Demo.cairo) in H.
  vm_compute in H. vm_compute. exact H.
Defined.

Lemma main_directory_step_failure_witness :
  main Demo.assets Demo.cairo Scenario.assets_is_file
    = (Raise (NotADirectoryError ["assets"; "icons"]),
       log (EvMkdir ["assets"; "icons"]) Scenario.assets_is_file).
Proof.
  destruct (main_directory_step_failure Demo.assets Demo.cairo Scenario.assets_is_file)
    as (_ & Hfile & _).
  apply (Hfile [x00]); vm_compute; reflexivity.
Defined.

Lemma script_with_modules_witness :
  let r := script Scenario.no_network Demo.assets Demo.cairo "__main__" Scenario.ready in
  r.1 = Exit (exit_main Demo.assets Demo.cairo Demo.fresh).1 /\
  commands r.2 = [].
Proof.
  intros r.
  destruct (script_with_modules Scenario.no_network Demo.assets Demo.cairo Scenario.ready)
    as (Hr & _ & Hc & _).
  - vm_compute. reflexivity.
  - vm_compute. reflexivity.
  - vm_compute. reflexivity.
  - split; [exact Hr | exact Hc].
Defined.

Lemma prelude_installs_once_witness :
  let r := prelude Scenario.pip Scenario.bare in
  commands r.2 = ["pip install cairosvg pillow"] /\
  trace (os r.2) = [EvPrint "Installing required packages..."] /\
  r.1 = Imported tt.
Proof.
  intros r.
  destruct (prelude_installs_once Scenario.pip Scenario.bare "cairosvg")
    as [Hfallback _]; [vm_compute; reflexivity|].
  destruct Hfallback as (Hc & Ht & _ & _ & Hiff & _); [reflexivity|].
  split_and!; [exact Hc | exact Ht |].
  apply Hiff. vm_compute. split_and!; reflexivity.
Defined.

(** The same fallback when the package that gets installed cannot load its
    library: the second import raises something else than [ImportError],
    outside the handler. *)
Example second_import_may_crash :
  let r := script Scenario.pip_files Demo.assets Demo.cairo "__main__"
             Scenario.libcairo_missing_after_install in
  r.1 = Crashed "cairosvg" /\
  commands r.2 = [install_command] /\
  trace (os r.2) = [EvPrint install_line].
Proof. vm_compute. split_and!; reflexivity. Qed.

(** With cairosvg installed but its library missing, the first import is
    already not an [ImportError]: no line, no command. *)
Example first_import_may_crash :
  let r := script Scenario.pip Demo.assets Demo.cairo "__main__" Scenario.no_libcairo in
  r.1 = Crashed "cairosvg" /\ commands r.2 = [] /\ trace (os r.2) = [].
Proof. vm_compute. split_and!; reflexivity. Qed.

Lemma script_runs_main_only_with_modules_witness :
  let r := script Scenario.no_network Demo.assets Demo.cairo "__main__" Scenario.bare in
  r.1 = ImportFailed "cairosvg" /\
  commands r.2 = [install_command] /\
  trace (os r.2) = [EvPrint install_line].
Proof.
  intros r.
  destruct (script_runs_main_only_with_modules Scenario.no_network Demo.assets Demo.cairo
              "__main__" Scenario.bare) as (_ & _ & Hfail).
  assert (Hr : r.1 = ImportFailed "cairosvg") by (vm_compute; reflexivity).
  destruct (Hfail "cairosvg" Hr) as (_ & Hc & Ht).
  split_and!; [exact Hr | exact Hc | exact Ht].
Defined.

Lemma imported_module_does_not_run_main_witness :
  let r := script Scenario.pip Demo.assets Demo.cairo "convert_svg" Scenario.bare in
  (forall status, r.1 <> Exit status) /\
  (trace (os r.2) = trace (os Scenario.bare) \/
   trace (os r.2) = trace (os Scenario.bare) ++ [EvPrint install_line]).
Proof.
  apply (imported_module_does_not_run_main Scenario.pip Demo.assets Demo.cairo
           "convert_svg" Scenario.bare).
  discriminate.
Defined.
